(** * Verification of the Pokemon scraper (src/scraping.py)

    A shallow embedding of [PokemonScraping]: the document queries the
    scraper issues against BeautifulSoup, the Python dictionary the scraper
    shares between entities, the pandas frame it accumulates and the Oracle
    sink, followed by the properties of the pipeline. *)

From Stdlib Require Import List String Ascii Bool Arith Lia Permutation.
Import ListNotations.
Open Scope string_scope.
Set Warnings "-register-all".

(* ================================================================== *)
(** ** Python strings *)
(* ================================================================== *)

Module PyStr.

(** Strings hold the UTF-8 bytes of the text.  [str.strip()] with no
    argument and the pattern [\s] remove the characters for which
    [str.isspace()] holds: U+0009..U+000D, U+001C..U+0020, U+0085, U+00A0,
    U+1680, U+2000..U+200A, U+2028, U+2029, U+202F, U+205F and U+3000. *)

(** The white space of one byte: TAB, LF, VT, FF, CR, the separators
    28..31 and SPACE. *)
Definition is_space (c : ascii) : bool :=
  let n := nat_of_ascii c in
  (((9 <=? n) && (n <=? 13)) || ((28 <=? n) && (n <=? 32)))%nat.

(** The white space of two bytes: U+0085 (C2 85) and U+00A0 (C2 A0). *)
Definition is_space2 (a b : ascii) : bool :=
  let x := nat_of_ascii a in
  let y := nat_of_ascii b in
  ((x =? 194) && ((y =? 133) || (y =? 160)))%nat.

(** The white space of three bytes: U+1680 (E1 9A 80), U+2000..U+200A
    (E2 80 80..8A), U+2028, U+2029, U+202F (E2 80 A8, A9, AF), U+205F
    (E2 81 9F) and U+3000 (E3 80 80). *)
Definition is_space3 (a b c : ascii) : bool :=
  let x := nat_of_ascii a in
  let y := nat_of_ascii b in
  let z := nat_of_ascii c in
  (((x =? 225) && (y =? 154) && (z =? 128))
   || ((x =? 226) && (y =? 128)
       && (((128 <=? z) && (z <=? 138))
           || (z =? 168) || (z =? 169) || (z =? 175)))
   || ((x =? 226) && (y =? 129) && (z =? 159))
   || ((x =? 227) && (y =? 128) && (z =? 128)))%nat.

Definition is_empty (s : string) : bool :=
  match s with EmptyString => true | String _ _ => false end.

(** The rest of a string behind one leading white-space character. *)
Definition skip_space (s : string) : option string :=
  match s with
  | EmptyString => None
  | String a s1 =>
      if is_space a then Some s1 else
      match s1 with
      | EmptyString => None
      | String b s2 =>
          if is_space2 a b then Some s2 else
          match s2 with
          | EmptyString => None
          | String c s3 => if is_space3 a b c then Some s3 else None
          end
      end
  end.

Fixpoint lstrip (s : string) : string :=
  match s with
  | EmptyString => EmptyString
  | String a s1 =>
      if is_space a then lstrip s1 else
      match s1 with
      | EmptyString => s
      | String b s2 =>
          if is_space2 a b then lstrip s2 else
          match s2 with
          | EmptyString => s
          | String c s3 => if is_space3 a b c then lstrip s3 else s
          end
      end
  end.

(** The string is made of white-space characters only. *)
Fixpoint all_space (s : string) : bool :=
  match s with
  | EmptyString => true
  | String a s1 =>
      if is_space a then all_space s1 else
      match s1 with
      | EmptyString => false
      | String b s2 =>
          if is_space2 a b then all_space s2 else
          match s2 with
          | EmptyString => false
          | String c s3 => if is_space3 a b c then all_space s3 else false
          end
      end
  end.

(** The string up to the white space it ends with. *)
Fixpoint rstrip (s : string) : string :=
  match s with
  | EmptyString => EmptyString
  | String c s' => if all_space s then EmptyString else String c (rstrip s')
  end.

Definition strip (s : string) : string := rstrip (lstrip s).

(** [sep.join(parts)] *)
Fixpoint join (sep : string) (parts : list string) : string :=
  match parts with
  | [] => EmptyString
  | [p] => p
  | p :: ps => p ++ sep ++ join sep ps
  end.

(** [s.startswith(prefix)] *)
Definition startswith (pre s : string) : bool := String.prefix pre s.

Definition flush (cur : string) (l : list string) : list string :=
  if is_empty cur then l else cur :: l.

(** The maximal runs of characters that are no white space, as [\S+]
    finds them. *)
Fixpoint split_ws_aux (cur : string) (s : string) : list string :=
  match s with
  | EmptyString => flush cur []
  | String a s1 =>
      if is_space a then flush cur (split_ws_aux EmptyString s1) else
      match s1 with
      | EmptyString => split_ws_aux (cur ++ String a EmptyString) s1
      | String b s2 =>
          if is_space2 a b then flush cur (split_ws_aux EmptyString s2) else
          match s2 with
          | EmptyString => split_ws_aux (cur ++ String a EmptyString) s1
          | String c s3 =>
              if is_space3 a b c
              then flush cur (split_ws_aux EmptyString s3)
              else split_ws_aux (cur ++ String a EmptyString) s1
          end
      end
  end.

Definition split_ws (s : string) : list string := split_ws_aux EmptyString s.

End PyStr.

(* ================================================================== *)
(** ** The document tree and the queries of BeautifulSoup *)
(* ================================================================== *)

Module Bs4.

Definition Attrs := list (string * string).

(** A parsed page element: a text string or a tag with its attributes and
    contents.  Comments and doctype declarations are read by none of the
    queries below and are left out of the tree. *)
Inductive Node : Type :=
| NavigableString (s : string)
| Tag (name : string) (attrs : Attrs) (contents : list Node).

(** The object returned by [BeautifulSoup(html, "html.parser")]: the
    top-level contents of the page. *)
Record BeautifulSoup : Type := { top : list Node }.

Definition TagInfo : Type := (string * Attrs)%type.

(** A tag together with the chain of its parents, nearest first: what a
    [Tag] object of the library knows through [.parent]. *)
Record Element : Type := { parents : list TagInfo; node : Node }.

Fixpoint attr_get (k : string) (a : Attrs) : option string :=
  match a with
  | [] => None
  | (k', v) :: a' => if String.eqb k k' then Some v else attr_get k a'
  end.

(** The tag itself and every tag below it, in document order. *)
Fixpoint elements (anc : list TagInfo) (n : Node) : list Element :=
  match n with
  | NavigableString _ => []
  | Tag name attrs cs =>
      {| parents := anc; node := n |}
        :: flat_map (elements ((name, attrs) :: anc)) cs
  end.

(** [tag.descendants], restricted to tags. *)
Definition descendant_elements (e : Element) : list Element :=
  match node e with
  | NavigableString _ => []
  | Tag name attrs cs => flat_map (elements ((name, attrs) :: parents e)) cs
  end.

Definition soup_elements (soup : BeautifulSoup) : list Element :=
  flat_map (elements []) (top soup).

(** Tags whose text the parser stores in a string class of its own
    ([Script], [Stylesheet], [TemplateString], [RubyTextString],
    [RubyParenthesisString]). *)
Definition string_container (name : string) : bool :=
  existsb (String.eqb name) ["script"; "style"; "template"; "rt"; "rp"].

(** The class of the strings directly below a tag: the nearest container
    around them, [None] for a plain [NavigableString]. *)
Definition string_class (name : string) (outer : option string)
  : option string :=
  if string_container name then Some name else outer.

Definition class_eqb (a b : option string) : bool :=
  match a, b with
  | None, None => true
  | Some x, Some y => String.eqb x y
  | _, _ => false
  end.

(** The strings of class [wanted] below a node, in document order;
    [cls] is the class a string at this place has. *)
Fixpoint all_strings (wanted cls : option string) (n : Node) : list string :=
  match n with
  | NavigableString s => if class_eqb cls wanted then [s] else []
  | Tag name _ cs => flat_map (all_strings wanted (string_class name cls)) cs
  end.

(** The class of the strings at a place, from the tags around it, nearest
    first. *)
Fixpoint class_at (anc : list TagInfo) : option string :=
  match anc with
  | [] => None
  | t :: anc' => string_class (fst t) (class_at anc')
  end.

(** The string class a tag is interested in: its own when it is a
    container, the plain one otherwise. *)
Definition interesting (n : Node) : option string :=
  match n with
  | NavigableString _ => None
  | Tag name _ _ => if string_container name then Some name else None
  end.

(** [tag.get_text(separator, strip=True)]: the strings of the class the tag
    is interested in (a plain tag skips the text of script, style,
    template, rt and rp); each is stripped, the empty ones are dropped, the
    rest joined by the separator. *)
Definition get_text (separator : string) (e : Element) : string :=
  PyStr.join separator
    (filter (fun s => negb (PyStr.is_empty s))
            (map PyStr.strip
                 (all_strings (interesting (node e)) (class_at (parents e))
                              (node e)))).

Definition tag_name (e : Element) : option string :=
  match node e with
  | NavigableString _ => None
  | Tag name _ _ => Some name
  end.

Definition tag_attrs (e : Element) : Attrs :=
  match node e with
  | NavigableString _ => []
  | Tag _ attrs _ => attrs
  end.

Definition has_name (name : string) (e : Element) : bool :=
  match tag_name e with
  | Some n => String.eqb n name
  | None => false
  end.

(** [tag.find(name)]: the first tag of that name below [tag]. *)
Definition find (name : string) (e : Element) : option Element :=
  List.find (has_name name) (descendant_elements e).

(** *** CSS selectors

    The three selectors of the scraper use type, class, id and
    attribute-prefix tests, joined by the child and the descendant
    combinator. *)
Inductive Simple : Type :=
| SType (name : string)                (* [a]            *)
| SClass (cls : string)                (* [.infocard]    *)
| SId (id : string)                    (* [#main]        *)
| SAttrPrefix (attr pre : string).     (* [[id^="x"]]    *)

Inductive Combinator : Type := Child | Descendant.

(** A complex selector, read right to left: the compound the matched
    element must satisfy, then the compounds of its parents. *)
Record Selector : Type :=
  { subject : list Simple; context : list (Combinator * list Simple) }.

Definition match_simple (s : Simple) (t : TagInfo) : bool :=
  match s with
  | SType name => String.eqb (fst t) name
  | SClass cls =>
      match attr_get "class" (snd t) with
      | Some v => existsb (String.eqb cls) (PyStr.split_ws v)
      | None => false
      end
  | SId id =>
      match attr_get "id" (snd t) with
      | Some v => String.eqb v id
      | None => false
      end
  | SAttrPrefix attr pre =>
      match attr_get attr (snd t) with
      | Some v => PyStr.startswith pre v
      | None => false
      end
  end.

Definition match_compound (c : list Simple) (t : TagInfo) : bool :=
  forallb (fun s => match_simple s t) c.

Fixpoint match_context (ctx : list (Combinator * list Simple))
         (anc : list TagInfo) : bool :=
  match ctx with
  | [] => true
  | (Child, c) :: ctx' =>
      match anc with
      | p :: anc' => match_compound c p && match_context ctx' anc'
      | [] => false
      end
  | (Descendant, c) :: ctx' =>
      (fix above (anc : list TagInfo) : bool :=
         match anc with
         | [] => false
         | p :: anc' =>
             (match_compound c p && match_context ctx' anc') || above anc'
         end) anc
  end.

Definition matches (sel : Selector) (e : Element) : bool :=
  match node e with
  | NavigableString _ => false
  | Tag name attrs _ =>
      match_compound (subject sel) (name, attrs)
      && match_context (context sel) (parents e)
  end.

(** [soup.select(selector)] *)
Definition soup_select (sel : Selector) (soup : BeautifulSoup)
  : list Element :=
  filter (matches sel) (soup_elements soup).

(** [soup.select_one(selector)]: the first match, or [None]. *)
Definition soup_select_one (sel : Selector) (soup : BeautifulSoup)
  : option Element :=
  List.find (matches sel) (soup_elements soup).

(** [tag.select(selector)] *)
Definition select (sel : Selector) (e : Element) : list Element :=
  filter (matches sel) (descendant_elements e).

End Bs4.

(* ================================================================== *)
(** ** Python dictionaries *)
(* ================================================================== *)

Module PyDict.

(** A [Dict[str, str]]: the items in insertion order. *)
Definition dict : Type := list (string * string).

Definition empty : dict := [].

(** [d.get(k)] *)
Fixpoint get (k : string) (d : dict) : option string :=
  match d with
  | [] => None
  | (k', v) :: d' => if String.eqb k k' then Some v else get k d'
  end.

(** [d[k] = v]: an existing key keeps its position, a new one goes last. *)
Fixpoint set (k v : string) (d : dict) : dict :=
  match d with
  | [] => [(k, v)]
  | (k', v') :: d' =>
      if String.eqb k k' then (k', v) :: d' else (k', v') :: set k v d'
  end.

(** [d.update(other)] *)
Definition update (d other : dict) : dict :=
  fold_left (fun acc kv => set (fst kv) (snd kv) acc) other d.

Definition keys (d : dict) : list string := map fst d.

Definition mem (k : string) (ks : list string) : bool :=
  existsb (String.eqb k) ks.

(** Keys of a dictionary are pairwise distinct. *)
Definition wf (d : dict) : Prop := NoDup (keys d).

End PyDict.

(* ================================================================== *)
(** ** pandas frames *)
(* ================================================================== *)

Module Pandas.

Import PyDict.

(** A cell holds a string or is missing (NaN). *)
Definition Cell : Type := option string.

(** A frame with the default integer index: the column labels and the
    rows, each aligned with the labels. *)
Record DataFrame : Type :=
  { columns : list string; data : list (list Cell) }.

(** Labels of [ks] not yet seen are added after those of [acc], each
    once. *)
Definition union_columns (acc ks : list string) : list string :=
  fold_left (fun a k => if mem k a then a else (a ++ [k])%list) ks acc.

(** [pd.DataFrame(records)] for a list of dictionaries: the columns are the
    keys in order of first appearance, a key a record lacks is missing in
    its row. *)
Definition of_records (records : list dict) : DataFrame :=
  let cols := fold_left union_columns (map keys records) [] in
  {| columns := cols;
     data := map (fun d => map (fun c => get c d) cols) records |}.

(** The cell of a row under a label; missing when the label is absent. *)
Fixpoint row_get (cols : list string) (row : list Cell) (c : string)
  : Cell :=
  match cols, row with
  | c' :: cols', v :: row' =>
      if String.eqb c c' then v else row_get cols' row' c
  | _, _ => None
  end.

(** [df.reindex(columns=cols)] *)
Definition reindex (cols : list string) (df : DataFrame)
  : list (list Cell) :=
  map (fun row => map (row_get (columns df) row) cols) (data df).

(** No label occurs twice. *)
Fixpoint unique (ks : list string) : bool :=
  match ks with
  | [] => true
  | k :: ks' => negb (mem k ks') && unique ks'
  end.

Fixpoint labels_eqb (a b : list string) : bool :=
  match a, b with
  | [], [] => true
  | x :: a', y :: b' => String.eqb x y && labels_eqb a' b'
  | _, _ => false
  end.

(** All frames carry the very same labels in the same order. *)
Definition same_labels (objs : list DataFrame) : bool :=
  match objs with
  | [] => true
  | o :: rest =>
      forallb (fun x => labels_eqb (columns x) (columns o)) rest
  end.

(** [pd.concat(objs, ignore_index=True)]: rows stacked and renumbered.
    Frames with the very same labels are stacked as they are; otherwise the
    columns are joined (outer) in order of first appearance and every frame
    is re-labelled, which pandas refuses with [InvalidIndexError] when a
    frame has a label twice.  [None] where pandas raises: for that, and
    with [ValueError] for an empty list. *)
Definition concat (objs : list DataFrame) : option DataFrame :=
  match objs with
  | [] => None
  | o :: _ =>
      if same_labels objs
      then Some {| columns := columns o; data := flat_map data objs |}
      else if forallb (fun x => unique (columns x)) objs
      then
        let cols := fold_left union_columns (map columns objs) [] in
        Some {| columns := cols; data := flat_map (reindex cols) objs |}
      else None
  end.

(** A frame with distinct labels and a cell under each label in every
    row. *)
Definition regular (df : DataFrame) : bool :=
  unique (columns df)
  && forallb (fun r => Nat.eqb (List.length r) (List.length (columns df)))
             (data df).

Definition n_rows (df : DataFrame) : nat := List.length (data df).

End Pandas.

(* ================================================================== *)
(** ** The scraper *)
(* ================================================================== *)

Module Scraping.

Import PyDict Pandas.

Inductive Exn : Type :=
| ValueError (msg : string)
| KeyError (key : string)
| AttributeError          (* a method called on [None] *)
| RequestException        (* [requests.get] failed *)
| InvalidIndexError       (* pandas cannot re-label repeated columns *)
| DatabaseError.          (* the Oracle session or statement failed *)

Inductive Result (A : Type) : Type :=
| Ok (a : A)
| Raise (e : Exn).
Arguments Ok {A} a.
Arguments Raise {A} e.

(** The fields of the dataclass. *)
Record PokemonScraping : Type :=
  { url_path : option string;
    pokemon_url_suffixes : list string;
    soup : option Bs4.BeautifulSoup;
    pokemon_dict_data : dict;
    dataframe : option DataFrame }.

(** [PokemonScraping(url_path=u)] *)
Definition new (u : option string) : PokemonScraping :=
  {| url_path := u; pokemon_url_suffixes := []; soup := None;
     pokemon_dict_data := empty; dataframe := None |}.

Definition set_suffixes (l : list string) (st : PokemonScraping) :=
  {| url_path := url_path st; pokemon_url_suffixes := l; soup := soup st;
     pokemon_dict_data := pokemon_dict_data st;
     dataframe := dataframe st |}.

Definition set_soup (s : Bs4.BeautifulSoup) (st : PokemonScraping) :=
  {| url_path := url_path st;
     pokemon_url_suffixes := pokemon_url_suffixes st; soup := Some s;
     pokemon_dict_data := pokemon_dict_data st;
     dataframe := dataframe st |}.

Definition set_dict (d : dict) (st : PokemonScraping) :=
  {| url_path := url_path st;
     pokemon_url_suffixes := pokemon_url_suffixes st; soup := soup st;
     pokemon_dict_data := d; dataframe := dataframe st |}.

Definition set_dataframe (df : DataFrame) (st : PokemonScraping) :=
  {| url_path := url_path st;
     pokemon_url_suffixes := pokemon_url_suffixes st; soup := soup st;
     pokemon_dict_data := pokemon_dict_data st; dataframe := Some df |}.

(** Methods mutate the object and may raise: what was mutated before an
    exception stays mutated.  The progress lines the methods print are
    left out. *)
Definition M (A : Type) : Type :=
  PokemonScraping -> Result A * PokemonScraping.

Definition ret {A} (a : A) : M A := fun st => (Ok a, st).
Definition raise {A} (e : Exn) : M A := fun st => (Raise e, st).
Definition bind {A B} (m : M A) (k : A -> M B) : M B :=
  fun st =>
    match m st with
    | (Ok a, st') => k a st'
    | (Raise e, st') => (Raise e, st')
    end.
Definition read {A} (f : PokemonScraping -> A) : M A :=
  fun st => (Ok (f st), st).
Definition modify (f : PokemonScraping -> PokemonScraping) : M unit :=
  fun st => (Ok tt, f st).

Notation "x <- m ;; k" := (bind m (fun x => k))
  (at level 61, m at next level, right associativity).
Notation "m ;;; k" := (bind m (fun _ => k))
  (at level 61, right associativity).

(** [for x in l: body(x)] *)
Fixpoint for_each {A} (l : list A) (body : A -> M unit) : M unit :=
  match l with
  | [] => ret tt
  | x :: l' => body x ;;; for_each l' body
  end.

(** ["div.infocard > span.infocard-lg-img > a"] *)
Definition selector_cards : Bs4.Selector :=
  {| Bs4.subject := [Bs4.SType "a"];
     Bs4.context :=
       [(Bs4.Child, [Bs4.SType "span"; Bs4.SClass "infocard-lg-img"]);
        (Bs4.Child, [Bs4.SType "div"; Bs4.SClass "infocard"])] |}.

(** ["#main > h1"] *)
Definition selector_name : Bs4.Selector :=
  {| Bs4.subject := [Bs4.SType "h1"];
     Bs4.context := [(Bs4.Child, [Bs4.SId "main"])] |}.

(** ['[id^="tab-basic-"] table'] *)
Definition selector_tables : Bs4.Selector :=
  {| Bs4.subject := [Bs4.SType "table"];
     Bs4.context := [(Bs4.Descendant, [Bs4.SAttrPrefix "id" "tab-basic-"])] |}.

(** ["tr"] *)
Definition selector_tr : Bs4.Selector :=
  {| Bs4.subject := [Bs4.SType "tr"]; Bs4.context := [] |}.

Definition name_key : string := "Pokemon Name".

(** [[tag["href"] for tag in tags]]: a tag without the attribute raises
    [KeyError]. *)
Fixpoint hrefs (tags : list Bs4.Element) : Result (list string) :=
  match tags with
  | [] => Ok []
  | t :: tags' =>
      match Bs4.attr_get "href" (Bs4.tag_attrs t) with
      | None => Raise (KeyError "href")
      | Some h =>
          match hrefs tags' with
          | Ok hs => Ok (h :: hs)
          | Raise e => Raise e
          end
      end
  end.

Definition build_pokemon_url (pokemon_suffix : string) : string :=
  "https://pokemondb.net" ++ pokemon_suffix.

(** One iteration of the loop of [get_table_dict]. *)
Definition table_row_step (data : dict) (tr : Bs4.Element) : dict :=
  match Bs4.find "th" tr, Bs4.find "td" tr with
  | Some th, Some td =>
      set (Bs4.get_text "" th) (Bs4.get_text " " td) data
  | _, _ => data
  end.

Definition get_table_dict (table : Bs4.Element) : dict :=
  fold_left table_row_step (Bs4.select selector_tr table) empty.

Section WithWeb.

(** The pages served: [None] where [requests.get] raises.  The page is
    given as parsed by [html.parser]. *)
Variable web : string -> option Bs4.BeautifulSoup.

Definition fetch_soup (path : option string) : M unit :=
  match path with
  | None => raise RequestException
  | Some url =>
      match web url with
      | None => raise RequestException
      | Some page => modify (set_soup page)
      end
  end.

(** The parsed page held by the object; a query on [None] raises. *)
Definition the_soup : M Bs4.BeautifulSoup :=
  fun st =>
    match soup st with
    | Some s => (Ok s, st)
    | None => (Raise AttributeError, st)
    end.

Definition get_urls : M unit :=
  p <- read url_path ;;
  fetch_soup p ;;;
  s <- the_soup ;;
  match hrefs (Bs4.soup_select selector_cards s) with
  | Ok l => modify (set_suffixes l)
  | Raise e => raise e
  end.

Definition get_pokemon_data (url : string) : M unit :=
  fetch_soup (Some url) ;;;
  s <- the_soup ;;
  match Bs4.soup_select_one selector_name s with
  | None => raise AttributeError
  | Some pokemon_name =>
      modify (fun st =>
                set_dict (set name_key (Bs4.get_text "" pokemon_name)
                              (pokemon_dict_data st)) st) ;;;
      for_each (Bs4.soup_select selector_tables s)
        (fun table =>
           modify (fun st =>
                     set_dict (update (pokemon_dict_data st)
                                      (get_table_dict table)) st))
  end.

Definition build_database : M unit :=
  d <- read pokemon_dict_data ;;
  let row := of_records [d] in
  df <- read dataframe ;;
  match df with
  | None => modify (set_dataframe row)
  | Some df =>
      match concat [df; row] with
      | Some df' => modify (set_dataframe df')
      | None => raise InvalidIndexError
      end
  end.

Definition run_scraping : M unit :=
  get_urls ;;;
  l <- read pokemon_url_suffixes ;;
  for_each l
    (fun pokemon_url_suffix =>
       get_pokemon_data (build_pokemon_url pokemon_url_suffix) ;;;
       build_database).

(** *** The Oracle sink *)

(** The database server as the scraper sees it: which logins the
    listener accepts, the connection attempts made so far and the tables
    stored. *)
Record Oracle : Type :=
  { listener : string -> string -> string -> bool;
    creates : string -> list string -> bool;
    inserts : string -> DataFrame -> bool;
    connections : list (string * string * string);
    tables : list (string * DataFrame) }.

(** [conn[k]] *)
Definition getitem (k : string) (conn : dict) : Result string :=
  match get k conn with
  | Some v => Ok v
  | None => Raise (KeyError k)
  end.

Definition drop_table (name : string) (t : list (string * DataFrame)) :=
  filter (fun e => negb (String.eqb (fst e) name)) t.

(** The server after a session: one more connection attempt and the
    tables [t]. *)
Definition session (db : Oracle) (attempt : string * string * string)
           (t : list (string * DataFrame)) : Oracle :=
  {| listener := listener db; creates := creates db; inserts := inserts db;
     connections := attempt :: connections db; tables := t |}.

(** [df.to_sql(name, con=engine, if_exists="replace", index=False)] on an
    engine whose creator is [oracledb.connect(user, password, dsn)]: the
    connection is opened here; then pandas drops an existing table of that
    name, creates the table with the labels of the frame and inserts the
    rows, when there are any.  The server may refuse the login, the
    [CREATE] ([creates]) or the rows ([inserts]); the statements before a
    refusal stay done, the [DROP] and [CREATE] being committed by Oracle as
    they run, while the rows of a refused insert are rolled back. *)
Definition to_sql (df : DataFrame) (name user password dsn : string)
           (db : Oracle) : Result unit * Oracle :=
  let attempt := (user, password, dsn) in
  if listener db user password dsn
  then
    let dropped := drop_table name (tables db) in
    if creates db name (columns df)
    then
      match data df with
      | [] => (Ok tt, session db attempt ((name, df) :: dropped))
      | _ :: _ =>
          if inserts db name df
          then (Ok tt, session db attempt ((name, df) :: dropped))
          else (Raise DatabaseError,
                session db attempt
                  ((name, {| columns := columns df; data := [] |})
                     :: dropped))
      end
    else (Raise DatabaseError, session db attempt dropped)
  else (Raise DatabaseError, session db attempt (tables db)).

Definition save_dataframe_to_oracle (conn : dict) (st : PokemonScraping)
           (db : Oracle) : Result unit * Oracle :=
  match dataframe st with
  | None => (Raise (ValueError "DataFrame is empty. Run scraping first."),
             db)
  | Some df =>
      match getitem "user" conn with
      | Raise e => (Raise e, db)
      | Ok user =>
      match getitem "password" conn with
      | Raise e => (Raise e, db)
      | Ok password =>
      match getitem "host" conn with
      | Raise e => (Raise e, db)
      | Ok host =>
      match getitem "port" conn with
      | Raise e => (Raise e, db)
      | Ok port =>
      match getitem "service" conn with
      | Raise e => (Raise e, db)
      | Ok service =>
      match getitem "table_name" conn with
      | Raise e => (Raise e, db)
      | Ok table_name =>
          let dsn := host ++ ":" ++ port ++ "/" ++ service in
          to_sql df table_name user password dsn db
      end end end end end end
  end.

(** The script: a fresh scraper on the catalogue, the full run, then the
    save.  An exception of the run ends the script before the save. *)
Definition main (url : string) (conn : dict) (db : Oracle)
  : Result unit * PokemonScraping * Oracle :=
  match run_scraping (new (Some url)) with
  | (Ok _, st) =>
      let (r, db') := save_dataframe_to_oracle conn st db in (r, st, db')
  | (Raise e, st) => (Raise e, st, db)
  end.

End WithWeb.

End Scraping.

(* ================================================================== *)
(** ** Sample pages *)
(* ================================================================== *)

Module Samples.

Import Bs4 PyDict Pandas Scraping.

Definition text (s : string) : Node := NavigableString s.

Definition card (href : string) : Node :=
  Tag "div" [("class", "infocard")]
    [Tag "span" [("class", "infocard-lg-img")]
       [Tag "a" [("href", href)] []]].

Definition listing (hs : list string) : BeautifulSoup :=
  {| top := [Tag "html" []
               [Tag "body" []
                  [Tag "main" [("id", "main")] (map card hs)]]] |}.

Definition vitals_row (k : string) (v : list Node) : Node :=
  Tag "tr" [] [Tag "th" [] [text k]; Tag "td" [] v].

Definition vitals (rows : list Node) : Node :=
  Tag "div" [("id", "tab-basic-1"); ("class", "sv-tabs-panel active")]
    [Tag "table" [("class", "vitals-table")] [Tag "tbody" [] rows]].

Definition detail (heading : list Node) (panels : list Node)
  : BeautifulSoup :=
  {| top := [Tag "html" []
               [Tag "body" []
                  [Tag "main" [("id", "main")]
                     (Tag "h1" [] heading :: panels)]]] |}.

Definition no_heading : BeautifulSoup :=
  {| top := [Tag "html" []
               [Tag "body" [] [Tag "main" [("id", "main")] []]]] |}.

Definition bulbasaur : BeautifulSoup :=
  detail [text "Bulbasaur"]
    [vitals [vitals_row "Type"
               [Tag "a" [] [text "Grass"]; text " / ";
                Tag "a" [] [text "Poison"]]]].

Definition ivysaur : BeautifulSoup := detail [text "Ivysaur"] [].

(** Two panels that both give a [Type]. *)
Definition venusaur : BeautifulSoup :=
  detail [text " Venusaur "]
    [vitals [vitals_row "Type" [text "Grass"];
             vitals_row "Species" [text "Seed Pokemon"]];
     vitals [vitals_row "Type"
               [Tag "a" [] [text "Grass"]; text " / ";
                Tag "a" [] [text "Poison"]];
             vitals_row "Height" [text "2.0 m"]]].

(** A table row labelled like the name column. *)
Definition pikachu : BeautifulSoup :=
  detail [text "Pikachu"] [vitals [vitals_row "Pokemon Name" [text "Raichu"]]].

(** A heading without text. *)
Definition nameless : BeautifulSoup := detail [] [].

Definition three_rows : list PyDict.dict :=
  [[("Pokemon Name", "Bulbasaur"); ("Type", "Grass / Poison")];
   [("Pokemon Name", "Ivysaur"); ("Species", "Seed Pokemon")];
   [("Pokemon Name", "Venusaur"); ("Type", "Grass / Poison");
    ("Height", "2.0 m")]].

Definition catalogue : string := "https://pokemondb.net/pokedex/national".

(** A site given as a list of pages by address. *)
Fixpoint site (pages : list (string * BeautifulSoup)) (url : string)
  : option BeautifulSoup :=
  match pages with
  | [] => None
  | (u, p) :: pages' => if String.eqb url u then Some p else site pages' url
  end.

Definition two_entities : string -> option BeautifulSoup :=
  site [(catalogue, listing ["/pokedex/1"; "/pokedex/2"]);
        ("https://pokemondb.net/pokedex/1", bulbasaur);
        ("https://pokemondb.net/pokedex/2", ivysaur)].

(** A catalogue whose second entity page lacks the heading. *)
Definition broken_second : string -> option BeautifulSoup :=
  site [(catalogue, listing ["/pokedex/1"; "/pokedex/0"; "/pokedex/2"]);
        ("https://pokemondb.net/pokedex/1", bulbasaur);
        ("https://pokemondb.net/pokedex/0", no_heading);
        ("https://pokemondb.net/pokedex/2", ivysaur)].

(** A catalogue whose only entity page has a heading without text. *)
Definition blank_heading : string -> option BeautifulSoup :=
  site [(catalogue, listing ["/pokedex/0"]);
        ("https://pokemondb.net/pokedex/0", nameless)].

Definition connection : dict :=
  [("user", "ash"); ("password", "pallet"); ("host", "db.example.org");
   ("port", "1521"); ("service", "XEPDB1");
   ("table_name", "master_pokemon")].

Definition connection_without_port : dict :=
  [("user", "ash"); ("password", "pallet"); ("host", "db.example.org");
   ("service", "XEPDB1"); ("table_name", "master_pokemon")].

(** A server that accepts every login and holds no table yet. *)
Definition fresh_db : Oracle :=
  {| listener := fun _ _ _ => true; creates := fun _ _ => true;
     inserts := fun _ _ => true; connections := []; tables := [] |}.

(** [PokemonScraping(dataframe=pd.DataFrame(columns=["Pokemon Name"]))]:
    a frame with a column and no row. *)
Definition hand_built : PokemonScraping :=
  {| url_path := None; pokemon_url_suffixes := []; soup := None;
     pokemon_dict_data := empty;
     dataframe := Some {| columns := ["Pokemon Name"]; data := [] |} |}.

End Samples.

(* ================================================================== *)
(** ** Vocabulary of the statements *)
(* ================================================================== *)

Module Spec.

Import Bs4 PyDict Pandas Scraping.

(** Appending a sequence of rows: each row in turn is the current
    dictionary of the scraper when [build_database] runs. *)
Definition accumulate (rows : list dict) : M unit :=
  for_each rows (fun row => modify (set_dict row) ;;; build_database).

(** Accumulating the rows as a single batch: one [pd.concat] of all the
    one-row frames. *)
Definition batch (rows : list dict) : option DataFrame :=
  concat (map (fun d => of_records [d]) rows).

(** [pd.DataFrame(rows)] as the table of the scraper: unset while there is
    no row. *)
Definition table_of (rows : list dict) : option DataFrame :=
  match rows with [] => None | _ => Some (of_records rows) end.

(** The table has the columns and the cells the rows call for: a column
    for each key of some row and no other, one table row per appended
    row, in order, with a cell under every column, holding the value the
    appended row has for that key and missing when it has none. *)
Definition column_union (rows : list dict) (t : DataFrame) : Prop :=
  (forall c, In c (columns t) <-> exists d, In d rows /\ In c (keys d))
  /\ n_rows t = List.length rows
  /\ forall i d,
       nth_error rows i = Some d ->
       exists r,
         nth_error (data t) i = Some r
         /\ List.length r = List.length (columns t)
         /\ forall c, row_get (columns t) r c = get c d.

(** The attribute tables of a detail page, in document order. *)
Definition attribute_tables (page : BeautifulSoup) : list Element :=
  soup_select selector_tables page.

(** The [href] of a tag, when it has one. *)
Definition href (t : Element) : option string :=
  attr_get "href" (tag_attrs t).

(** Every entity card of the listing carries a link target. *)
Definition well_formed_listing (page : BeautifulSoup) : bool :=
  forallb (fun t => match href t with Some _ => true | None => false end)
          (soup_select selector_cards page).

(** The keys the attribute tables of a page contribute, table by table. *)
Definition contributed_keys (page : BeautifulSoup) : list string :=
  flat_map (fun t => keys (get_table_dict t)) (attribute_tables page).

(** The number of distinct keys among them. *)
Definition unique_pairs (page : BeautifulSoup) : nat :=
  List.length (nodup string_dec (contributed_keys page)).

(** The dictionary after the tables of a page were merged into [d]. *)
Definition merged (page : BeautifulSoup) (d : dict) : dict :=
  fold_left (fun d t => update d (get_table_dict t))
            (attribute_tables page) d.

(** On a key several tables have, the value of the last of them in
    document order is the one found in [d]. *)
Definition last_write_wins (page : BeautifulSoup) (d : dict) : Prop :=
  forall ts1 t ts2 k v,
    attribute_tables page = (ts1 ++ t :: ts2)%list ->
    get k (get_table_dict t) = Some v ->
    (forall t', In t' ts2 -> get k (get_table_dict t') = None) ->
    get k d = Some v.

(** The page behind [url] contributes a pair for [k]: the name key when it
    has the heading, and the keys of its attribute tables. *)
Definition contributes (web : string -> option BeautifulSoup)
           (url k : string) : bool :=
  match web url with
  | Some page =>
      (String.eqb k name_key
       && match soup_select_one selector_name page with
          | Some _ => true
          | None => false
          end)
      || mem k (contributed_keys page)
  | None => false
  end.

(** The rows held in memory. *)
Definition table_rows (st : PokemonScraping) : nat :=
  match dataframe st with None => 0 | Some df => n_rows df end.

(** The table, when there is one, has no label twice: so it is for a
    fresh scraper and for every table a run builds. *)
Definition distinct_labels (st : PokemonScraping) : bool :=
  match dataframe st with None => true | Some df => unique (columns df) end.

(** Every row has a value other than the empty string under the name
    column. *)
Definition name_nonempty (df : DataFrame) : bool :=
  forallb (fun row =>
             match row_get (columns df) row name_key with
             | Some s => negb (PyStr.is_empty s)
             | None => false
             end) (data df).

(** The text [get_pokemon_data] leaves under the name key for a page with
    the heading [h]: the value of the last attribute table that has a row
    labelled like the name column, the trimmed heading otherwise. *)
Definition stored_name (page : BeautifulSoup) (h : Element) : string :=
  match get name_key (merged page empty) with
  | Some v => v
  | None => get_text "" h
  end.

(** The name stored for an entity, when its page is served and has the
    heading. *)
Definition entity_name (web : string -> option BeautifulSoup)
           (suffix : string) : Cell :=
  match web (build_pokemon_url suffix) with
  | Some page =>
      match soup_select_one selector_name page with
      | Some h => Some (stored_name page h)
      | None => None
      end
  | None => None
  end.

(** The name stored for an entity is not the empty string. *)
Definition names_its_entity (web : string -> option BeautifulSoup)
           (suffix : string) : bool :=
  match entity_name web suffix with
  | Some s => negb (PyStr.is_empty s)
  | None => true
  end.

(** The cells under the name column, row by row; none while the table is
    unset. *)
Definition name_cells (st : PokemonScraping) : list Cell :=
  match dataframe st with
  | None => []
  | Some df => map (fun r => row_get (columns df) r name_key) (data df)
  end.

(** A property of the frame held by the scraper, when there is one. *)
Definition table_holds (P : DataFrame -> bool) (st : PokemonScraping)
  : bool :=
  match dataframe st with None => true | Some df => P df end.

(** The page of an entity is served and has the primary heading. *)
Definition has_heading (web : string -> option BeautifulSoup)
           (suffix : string) : bool :=
  match web (build_pokemon_url suffix) with
  | Some page =>
      match soup_select_one selector_name page with
      | Some _ => true
      | None => false
      end
  | None => false
  end.

(** The page of an entity is served and lacks the primary heading. *)
Definition lacks_heading (web : string -> option BeautifulSoup)
           (suffix : string) : bool :=
  match web (build_pokemon_url suffix) with
  | Some page =>
      match soup_select_one selector_name page with
      | Some _ => false
      | None => true
      end
  | None => false
  end.

(** The keys [save_dataframe_to_oracle] reads, in the order it reads
    them. *)
Definition required_keys : list string :=
  ["user"; "password"; "host"; "port"; "service"; "table_name"].

(** Some required key is absent from the connection dictionary. *)
Definition missing_key (conn : dict) : bool :=
  existsb (fun k => match get k conn with None => true | Some _ => false end)
          required_keys.

(** One iteration of the loop of [run_scraping]. *)
Definition scrape_one (web : string -> option BeautifulSoup)
           (suffix : string) : M unit :=
  get_pokemon_data web (build_pokemon_url suffix) ;;; build_database.

(** The rows of the table are those of the first entities of [links], in
    order: each row holds under the name column the name stored for its
    entity, and all names are non-empty exactly when the stored name of
    each of these entities is. *)
Definition names_recorded (web : string -> option BeautifulSoup)
           (links : list string) (st : PokemonScraping) : Prop :=
  exists done rest,
    links = (done ++ rest)%list
    /\ forallb (has_heading web) done = true
    /\ name_cells st = map (entity_name web) done
    /\ table_holds name_nonempty st
       = forallb (names_its_entity web) done.

End Spec.

(* ================================================================== *)
(** ** Further vocabulary: rows of a table, columns, the database *)
(* ================================================================== *)

Module Observe.

Import Bs4 PyDict Pandas Scraping Spec.

(** The pair a table row contributes: it needs both a header cell and a
    data cell. *)
Definition row_pair (tr : Element) : option (string * string) :=
  match find "th" tr, find "td" tr with
  | Some th, Some td => Some (get_text "" th, get_text " " td)
  | _, _ => None
  end.

(** The pairs of the rows of a table, in document order. *)
Definition row_pairs (table : Element) : list (string * string) :=
  flat_map (fun tr => match row_pair tr with Some p => [p] | None => [] end)
           (select selector_tr table).

(** No row of [rows] contributes a pair for [k]. *)
Definition no_pair_for (k : string) (rows : list Element) : bool :=
  forallb (fun tr =>
             match row_pair tr with
             | Some (k', _) => negb (String.eqb k' k)
             | None => true
             end) rows.

(** A continuation byte of an encoded character. *)
Definition is_cont (a : ascii) : bool :=
  let n := nat_of_ascii a in
  ((128 <=? n) && (n <? 192))%nat.

(** The number of bytes of the character a byte opens, 0 for a byte that
    opens none. *)
Definition width (a : ascii) : nat :=
  let n := nat_of_ascii a in
  if (n <? 128)%nat then 1
  else if (n <? 192)%nat then 0
  else if (n <? 224)%nat then 2
  else if (n <? 240)%nat then 3
  else if (n <? 248)%nat then 4
  else 0.

(** The bytes are a sequence of whole encoded characters, as the bytes of a
    Python [str] are. *)
Fixpoint utf8 (s : string) : bool :=
  match s with
  | EmptyString => true
  | String a s1 =>
      match width a with
      | 1 => utf8 s1
      | 2 =>
          match s1 with
          | String b s2 => is_cont b && utf8 s2
          | _ => false
          end
      | 3 =>
          match s1 with
          | String b (String c s3) => is_cont b && is_cont c && utf8 s3
          | _ => false
          end
      | 4 =>
          match s1 with
          | String b (String c (String d s4)) =>
              is_cont b && is_cont c && is_cont d && utf8 s4
          | _ => false
          end
      | _ => false
      end
  end.

(** Every string of the tree is a sequence of whole characters. *)
Fixpoint utf8_tree (n : Node) : bool :=
  match n with
  | NavigableString s => utf8 s
  | Tag _ _ cs => forallb utf8_tree cs
  end.

(** A text that [strip] leaves as it is: whole characters, no white
    space in front, none behind. *)
Definition clean (p : string) : Prop :=
  utf8 p = true /\ PyStr.skip_space p = None /\ PyStr.rstrip p = p.

(** The cells of a frame under one label, row by row. *)
Definition column (c : string) (df : DataFrame) : list Cell :=
  map (fun r => row_get (columns df) r c) (data df).

(** The trimmed heading of the page of an entity, when the page is served
    and has the heading. *)
Definition heading_text (web : string -> option BeautifulSoup)
           (suffix : string) : Cell :=
  match web (build_pokemon_url suffix) with
  | Some page =>
      match soup_select_one selector_name page with
      | Some h => Some (get_text "" h)
      | None => None
      end
  | None => None
  end.

(** A table of the page of an entity has a row labelled like the name
    column. *)
Definition relabels_name (web : string -> option BeautifulSoup)
           (suffix : string) : bool :=
  match web (build_pokemon_url suffix) with
  | Some page => mem name_key (contributed_keys page)
  | None => false
  end.

(** The first required key the connection dictionary lacks. *)
Definition first_missing (conn : dict) : option string :=
  List.find (fun k => match get k conn with None => true | Some _ => false end)
            required_keys.

(** The login [save_dataframe_to_oracle] makes with a connection
    dictionary: user, password and the address [host:port/service]. *)
Definition login (conn : dict) : option (string * string * string) :=
  match get "user" conn, get "password" conn, get "host" conn,
        get "port" conn, get "service" conn with
  | Some user, Some password, Some host, Some port, Some service =>
      Some (user, password, host ++ ":" ++ port ++ "/" ++ service)
  | _, _, _, _, _ => None
  end.


(** The server accepts the write of a frame under a name: the [CREATE]
    with its labels and, when it has rows, the rows. *)
Definition writes (db : Oracle) (name : string) (df : DataFrame) : bool :=
  creates db name (columns df)
  && match data df with [] => true | _ :: _ => inserts db name df end.

(** The table stored under a name. *)
Definition table_named (name : string) (db : Oracle) : option DataFrame :=
  option_map snd
    (List.find (fun e => String.eqb (fst e) name) (tables db)).

(** How many tables are stored under a name. *)
Definition tables_named (name : string) (db : Oracle) : nat :=
  List.length (filter (fun e => String.eqb (fst e) name) (tables db)).

(** Sample pages and states for the statements below. *)

Definition ragged_table : Node :=
  Tag "table" []
    [Tag "tr" [] [Tag "th" [] [NavigableString " Type "];
                  Tag "td" [] [NavigableString "Grass"]];
     Tag "tr" [] [Tag "th" [] [NavigableString "No data cell"]];
     Tag "tr" [] [Tag "td" [] [NavigableString "No header cell"]];
     Tag "tr" [] [Tag "th" [] [NavigableString "Type"];
                  Tag "td" [] [Tag "a" [] [NavigableString "Grass"];
                               NavigableString " / ";
                               Tag "a" [] [NavigableString "Poison"]]];
     Tag "tr" [] [Tag "th" [] [NavigableString "Height"];
                  Tag "td" [] [NavigableString " 0.7 m "]]].

Definition ragged : Element := {| parents := []; node := ragged_table |}.

(** U+00A0, the no-break space, and U+3000, the ideographic space, as the
    bytes that encode them. *)
Definition nbsp : string :=
  String (ascii_of_nat 194) (String (ascii_of_nat 160) EmptyString).

Definition ideographic_space : string :=
  String (ascii_of_nat 227)
         (String (ascii_of_nat 128) (String (ascii_of_nat 128) EmptyString)).

(** A table whose cells are padded with white space beyond ASCII and whose
    data cell holds a script. *)
Definition padded_table : Node :=
  Tag "table" []
    [Tag "tr" [] [Tag "th" [] [NavigableString (nbsp ++ "Height" ++ nbsp)];
                  Tag "td" [] [NavigableString (ideographic_space ++ "0.7");
                               Tag "script" [] [NavigableString "hidden"];
                               NavigableString ("m" ++ nbsp)]]].

Definition padded : Element := {| parents := []; node := padded_table |}.

(** A listing whose second card has an anchor without [href]. *)
Definition listing_without_href : BeautifulSoup :=
  {| top := [Tag "html" []
               [Tag "body" []
                  [Samples.card "/pokedex/1";
                   Tag "div" [("class", "infocard")]
                     [Tag "span" [("class", "infocard-lg-img")]
                        [Tag "a" [] []]]]]] |}.

Definition site_without_href : string -> option BeautifulSoup :=
  Samples.site [(Samples.catalogue, listing_without_href)].

(** A catalogue without entity cards. *)
Definition empty_catalogue : string -> option BeautifulSoup :=
  Samples.site [(Samples.catalogue, Samples.listing [])].

(** A catalogue whose second entity page is not served. *)
Definition unreachable_second : string -> option BeautifulSoup :=
  Samples.site
    [(Samples.catalogue, Samples.listing ["/pokedex/1"; "/pokedex/2"]);
     ("https://pokemondb.net/pokedex/1", Samples.bulbasaur)].

(** A frame of two rows, the second without a type. *)
Definition stored_frame : DataFrame :=
  {| columns := ["Pokemon Name"; "Type"];
     data := [[Some "Bulbasaur"; Some "Grass / Poison"];
              [Some "Ivysaur"; None]] |}.

(** A frame that has a label twice, as
    [pd.DataFrame([["1", "2"]], columns=["A", "A"])]. *)
Definition doubled_frame : DataFrame :=
  {| columns := ["A"; "A"]; data := [[Some "1"; Some "2"]] |}.

(** A server that holds two tables and refuses every login. *)
Definition closed_db : Oracle :=
  {| listener := fun _ _ _ => false; creates := fun _ _ => true;
     inserts := fun _ _ => true; connections := [];
     tables := [("master_pokemon", stored_frame);
                ("trainers", {| columns := ["Name"]; data := [] |})] |}.

(** A server that holds the same tables and accepts every login. *)
Definition stocked_db : Oracle :=
  {| listener := fun _ _ _ => true; creates := fun _ _ => true;
     inserts := fun _ _ => true;
     connections := [("misty", "cerulean", "db.example.org:1521/XEPDB1")];
     tables := [("master_pokemon", stored_frame);
                ("trainers", {| columns := ["Name"]; data := [] |});
                ("master_pokemon", {| columns := []; data := [] |})] |}.

End Observe.

(* ================================================================== *)
(** ** Properties of dictionaries *)
(* ================================================================== *)

Module PyDictFacts.

Import PyDict.

Lemma mem_In k ks : mem k ks = true <-> In k ks.
Proof.
  unfold mem. rewrite existsb_exists. split.
  - intros (x & Hx & E). apply String.eqb_eq in E. now subst.
  - intros H. exists k. split; [assumption | apply String.eqb_refl].
Qed.

Lemma mem_not_In k ks : mem k ks = false <-> ~ In k ks.
Proof.
  rewrite <- mem_In. destruct (mem k ks); split; congruence.
Qed.

Lemma get_None_keys k d : get k d = None <-> ~ In k (keys d).
Proof.
  induction d as [|[k' v] d IH]; simpl.
  - tauto.
  - destruct (String.eqb_spec k k') as [->|N].
    + split; [discriminate | intros H; exfalso; apply H; now left].
    + rewrite IH. split; [intros H [E|I]; [congruence | tauto] | tauto].
Qed.

Lemma get_Some_keys k v d : get k d = Some v -> In k (keys d).
Proof.
  intros H. destruct (in_dec string_dec k (keys d)) as [I|N]; [exact I|].
  apply get_None_keys in N. congruence.
Qed.

Lemma keys_get_Some k d : In k (keys d) -> exists v, get k d = Some v.
Proof.
  intros H. destruct (get k d) as [v|] eqn:E; [now exists v|].
  apply get_None_keys in E. tauto.
Qed.

Lemma get_set_same k v d : get k (set k v d) = Some v.
Proof.
  induction d as [|[k' v'] d IH]; simpl.
  - now rewrite String.eqb_refl.
  - destruct (String.eqb_spec k k') as [->|N]; simpl.
    + now rewrite String.eqb_refl.
    + destruct (String.eqb_spec k k'); [congruence | exact IH].
Qed.

Lemma get_set_other k k' v d : k <> k' -> get k (set k' v d) = get k d.
Proof.
  intros N. induction d as [|[k0 v0] d IH]; simpl.
  - destruct (String.eqb_spec k k'); [congruence | reflexivity].
  - destruct (String.eqb_spec k' k0) as [->|N0]; simpl.
    + destruct (String.eqb_spec k k0); [congruence | reflexivity].
    + destruct (String.eqb_spec k k0); [reflexivity | exact IH].
Qed.

Lemma keys_set k v d :
  keys (set k v d) = if mem k (keys d) then keys d else (keys d ++ [k])%list.
Proof.
  induction d as [|[k' v'] d IH]; simpl; [reflexivity|].
  destruct (String.eqb_spec k k') as [->|N]; simpl; [reflexivity|].
  rewrite IH. fold (mem k (keys d)). now destruct (mem k (keys d)).
Qed.

Lemma In_keys_set k k' v d :
  In k (keys (set k' v d)) <-> k = k' \/ In k (keys d).
Proof.
  rewrite keys_set. destruct (mem k' (keys d)) eqn:E.
  - apply mem_In in E. split; [tauto | intros [->|H]; assumption].
  - rewrite in_app_iff. simpl. split; [intros [H|[H|[]]]; auto | ].
    intros [H|H]; auto.
Qed.

Lemma wf_set k v d : wf d -> wf (set k v d).
Proof.
  unfold wf. intros H. rewrite keys_set. destruct (mem k (keys d)) eqn:E.
  - exact H.
  - apply mem_not_In in E. apply NoDup_app; auto.
    + constructor; [intros [] | constructor].
    + intros x Hx [<-|[]]. tauto.
Qed.

Lemma update_snoc d o kv :
  update d (o ++ [kv])%list = set (fst kv) (snd kv) (update d o).
Proof. unfold update. now rewrite fold_left_app. Qed.

Lemma wf_update d o : wf d -> wf (update d o).
Proof.
  revert d. induction o as [|[k v] o IH]; intros d H; simpl; [exact H|].
  apply IH. now apply wf_set.
Qed.

Lemma In_keys_update k d o :
  In k (keys (update d o)) <-> In k (keys d) \/ In k (keys o).
Proof.
  unfold update. revert d.
  induction o as [|[k' v] o IH]; intros d; simpl; [tauto|].
  rewrite IH, In_keys_set. intuition auto.
Qed.

(** A key the second dictionary lacks keeps its value. *)
Lemma get_update_absent k d o :
  get k o = None -> get k (update d o) = get k d.
Proof.
  unfold update. revert d.
  induction o as [|[k' v] o IH]; intros d H; simpl in *; [reflexivity|].
  destruct (String.eqb_spec k k') as [->|N]; [discriminate|].
  rewrite IH by assumption. now apply get_set_other.
Qed.

(** A key the second dictionary holds takes its value from there. *)
Lemma get_update_present k v d o :
  wf o -> get k o = Some v -> get k (update d o) = Some v.
Proof.
  unfold update, wf. revert d.
  induction o as [|[k' v'] o IH]; intros d W H; simpl in *; [discriminate|].
  inversion W as [|? ? Hn Hw]; subst.
  destruct (String.eqb_spec k k') as [->|N].
  - injection H as ->.
    assert (G : get k' o = None) by now apply get_None_keys.
    pose proof (get_update_absent k' (set k' v d) o G) as E.
    unfold update in E. rewrite E. apply get_set_same.
  - now apply IH.
Qed.

End PyDictFacts.

(* ================================================================== *)
(** ** Properties of frames *)
(* ================================================================== *)

Module PandasFacts.

Import PyDict Pandas PyDictFacts.

Lemma row_get_map (f : string -> Cell) cols c :
  row_get cols (map f cols) c = if mem c cols then f c else None.
Proof.
  induction cols as [|c' cols IH]; simpl; [reflexivity|].
  destruct (String.eqb_spec c c') as [->|N]; simpl; [reflexivity|exact IH].
Qed.

(** Reading a record through its own row gives the record's value. *)
Lemma row_get_record d cols c :
  (forall k, In k (keys d) -> In k cols) ->
  row_get cols (map (fun c => get c d) cols) c = get c d.
Proof.
  intros H. rewrite row_get_map. destruct (mem c cols) eqn:E;
    [reflexivity|].
  apply mem_not_In in E. symmetry. apply get_None_keys. auto.
Qed.

(** Reading a full row label by label gives the row back. *)
Lemma row_get_self cols : forall row,
  NoDup cols ->
  List.length row = List.length cols ->
  map (row_get cols row) cols = row.
Proof.
  induction cols as [|c cols IH]; intros [|v row] N L; try discriminate;
    [reflexivity|].
  inversion N as [|? ? Hn Hd]; subst. cbn [map row_get].
  rewrite String.eqb_refl. f_equal.
  transitivity (map (row_get cols row) cols).
  - apply map_ext_in. intros c' Hc'. cbn [row_get].
    destruct (String.eqb_spec c' c) as [->|_]; [contradiction | reflexivity].
  - apply IH; [exact Hd | simpl in L; lia].
Qed.

Lemma unique_NoDup ks : unique ks = true <-> NoDup ks.
Proof.
  induction ks as [|k ks IH]; simpl.
  - split; [constructor | reflexivity].
  - rewrite andb_true_iff, negb_true_iff, mem_not_In, IH. split.
    + intros [H1 H2]. now constructor.
    + intros H. inversion H; subst. now split.
Qed.

Lemma labels_eqb_eq a : forall b, labels_eqb a b = true <-> a = b.
Proof.
  induction a as [|x a IH]; intros [|y b]; simpl;
    try (split; [discriminate | discriminate]); [tauto|].
  rewrite andb_true_iff, String.eqb_eq, IH. split.
  - intros [-> ->]. reflexivity.
  - intros H. injection H as -> ->. now split.
Qed.

Lemma regular_spec df :
  regular df = true
  <-> NoDup (columns df)
      /\ Forall (fun r => List.length r = List.length (columns df))
                (data df).
Proof.
  unfold regular. rewrite andb_true_iff, unique_NoDup, forallb_forall,
    Forall_forall.
  split; intros [H1 H2]; (split; [exact H1|]); intros r Hr.
  - now apply Nat.eqb_eq, H2.
  - now apply Nat.eqb_eq, H2.
Qed.

Lemma union_columns_cons acc k ks :
  union_columns acc (k :: ks)
  = union_columns (if mem k acc then acc else (acc ++ [k])%list) ks.
Proof. reflexivity. Qed.

Lemma union_columns_snoc acc ks k :
  union_columns acc (ks ++ [k])
  = if mem k (union_columns acc ks) then union_columns acc ks
    else (union_columns acc ks ++ [k])%list.
Proof. unfold union_columns. now rewrite fold_left_app. Qed.

Lemma In_union_columns c ks : forall acc,
  In c (union_columns acc ks) <-> In c acc \/ In c ks.
Proof.
  induction ks as [|k ks IH]; intros acc.
  - simpl. tauto.
  - rewrite union_columns_cons, IH. destruct (mem k acc) eqn:E.
    + apply mem_In in E. simpl. split; [tauto|].
      intros [H|[<-|H]]; auto.
    + rewrite in_app_iff. simpl. tauto.
Qed.

Lemma NoDup_union_columns ks : forall acc,
  NoDup acc -> NoDup (union_columns acc ks).
Proof.
  induction ks as [|k ks IH]; intros acc N; [exact N|].
  rewrite union_columns_cons. apply IH. destruct (mem k acc) eqn:E;
    [exact N|].
  apply mem_not_In in E. apply NoDup_app; auto.
  - constructor; [intros [] | constructor].
  - intros x Hx [<-|[]]. contradiction.
Qed.

Lemma union_columns_prefix ks : forall acc,
  exists added, union_columns acc ks = (acc ++ added)%list.
Proof.
  induction ks as [|k ks IH]; intros acc.
  - exists []. now rewrite app_nil_r.
  - rewrite union_columns_cons. destruct (mem k acc).
    + apply IH.
    + destruct (IH (acc ++ [k])%list) as (l & E). exists (k :: l).
      now rewrite E, <- app_assoc.
Qed.

(** Distinct new labels are added as they come. *)
Lemma union_columns_fresh ks : forall acc,
  NoDup (acc ++ ks) -> union_columns acc ks = (acc ++ ks)%list.
Proof.
  induction ks as [|k ks IH]; intros acc N.
  - now rewrite app_nil_r.
  - rewrite union_columns_cons.
    assert (E : mem k acc = false).
    { apply mem_not_In. intros H. apply NoDup_remove_2 in N.
      apply N, in_or_app. now left. }
    rewrite E, IH; rewrite <- app_assoc; [reflexivity | exact N].
Qed.

Lemma union_columns_nil ks : NoDup ks -> union_columns [] ks = ks.
Proof. intros N. now apply (union_columns_fresh ks []). Qed.

(** Labels already there add nothing. *)
Lemma union_columns_absorb ks : forall acc,
  (forall k, In k ks -> In k acc) -> union_columns acc ks = acc.
Proof.
  induction ks as [|k ks IH]; intros acc H; [reflexivity|].
  rewrite union_columns_cons.
  assert (E : mem k acc = true) by (apply mem_In, H; now left).
  rewrite E. apply IH. intros k' Hk'. apply H. now right.
Qed.

(** Adding labels, or the same labels each once, is the same. *)
Lemma union_columns_dedup acc ks :
  union_columns acc (union_columns [] ks) = union_columns acc ks.
Proof.
  induction ks as [|k ks IH] using rev_ind; [reflexivity|].
  rewrite !union_columns_snoc.
  destruct (mem k (union_columns [] ks)) eqn:E.
  - rewrite IH.
    assert (M : mem k (union_columns acc ks) = true).
    { apply mem_In, In_union_columns. right. apply mem_In in E.
      apply In_union_columns in E. now destruct E. }
    now rewrite M.
  - now rewrite union_columns_snoc, IH.
Qed.

Lemma In_fold_union c kss : forall acc,
  In c (fold_left union_columns kss acc)
  <-> In c acc \/ exists ks, In ks kss /\ In c ks.
Proof.
  induction kss as [|ks kss IH]; intros acc; simpl.
  - split; [tauto | intros [H|(ks & [] & _)]; exact H].
  - rewrite IH, In_union_columns. split.
    + intros [[H|H]|(ks' & H1 & H2)]; eauto.
    + intros [H|(ks' & [<-|H1] & H2)]; eauto.
Qed.

Lemma NoDup_fold_union kss : forall acc,
  NoDup acc -> NoDup (fold_left union_columns kss acc).
Proof.
  induction kss as [|ks kss IH]; intros acc N; [exact N|].
  simpl. now apply IH, NoDup_union_columns.
Qed.

Lemma fold_union_dedup (l : list dict) : forall acc,
  fold_left union_columns
            (map (fun d => union_columns [] (keys d)) l) acc
  = fold_left union_columns (map keys l) acc.
Proof.
  induction l as [|d l IH]; intros acc; [reflexivity|].
  cbn [map fold_left]. now rewrite union_columns_dedup, IH.
Qed.

(** Frames that all have the labels [cols] join to [cols]. *)
Lemma fold_union_same cols (objs : list DataFrame) :
  NoDup cols ->
  (forall x, In x objs -> columns x = cols) ->
  objs <> [] ->
  fold_left union_columns (map columns objs) [] = cols.
Proof.
  intros N H Hne. destruct objs as [|o objs]; [congruence|].
  cbn [map fold_left]. rewrite (H o) by now left.
  rewrite union_columns_nil by assumption.
  assert (G : forall l : list DataFrame,
             (forall x, In x l -> columns x = cols) ->
             fold_left union_columns (map columns l) cols = cols).
  { induction l as [|x l IH]; intros Hl; [reflexivity|].
    cbn [map fold_left]. rewrite (Hl x) by now left.
    rewrite union_columns_absorb by auto. apply IH.
    intros y Hy. apply Hl. now right. }
  apply G. intros x Hx. apply H. now right.
Qed.

Lemma In_columns_of_records c records :
  In c (columns (of_records records))
  <-> exists d, In d records /\ In c (keys d).
Proof.
  simpl. rewrite In_fold_union. split.
  - intros [[]|(ks & H1 & H2)]. apply in_map_iff in H1.
    destruct H1 as (d & <- & Hd). eauto.
  - intros (d & Hd & Hc). right. exists (keys d). split; [|exact Hc].
    now apply in_map.
Qed.

Lemma columns_of_records_snoc pre d :
  columns (of_records (pre ++ [d]))
  = union_columns (columns (of_records pre)) (keys d).
Proof. simpl. now rewrite map_app, fold_left_app. Qed.

Lemma NoDup_columns_of_records records :
  NoDup (columns (of_records records)).
Proof. apply NoDup_fold_union. constructor. Qed.

Lemma regular_of_records records : regular (of_records records) = true.
Proof.
  apply regular_spec. split; [apply NoDup_columns_of_records|].
  apply Forall_forall. intros r Hr. cbn [data of_records] in Hr.
  apply in_map_iff in Hr. destruct Hr as (d & <- & _). apply length_map.
Qed.

Lemma of_records_single d :
  of_records [d]
  = {| columns := union_columns [] (keys d);
       data := [map (fun c => get c d) (union_columns [] (keys d))] |}.
Proof. reflexivity. Qed.

(** The one-row frame of a dictionary with distinct keys has its keys as
    labels. *)
Lemma columns_single d : wf d -> columns (of_records [d]) = keys d.
Proof. intros W. cbn. now apply union_columns_nil. Qed.

Lemma In_columns_single k d :
  In k (columns (of_records [d])) <-> In k (keys d).
Proof. cbn. rewrite In_union_columns. simpl. tauto. Qed.

(** Re-labelling the one-row frame of a record reads the record. *)
Lemma reindex_single cols d :
  reindex cols (of_records [d]) = [map (fun c => get c d) cols].
Proof.
  rewrite of_records_single. unfold reindex. cbn [data columns map].
  f_equal. apply map_ext. intros c. apply row_get_record.
  intros k Hk. apply In_union_columns. now right.
Qed.

(** Re-labelling a regular frame with its own labels changes nothing. *)
Lemma reindex_self df : regular df = true -> reindex (columns df) df = data df.
Proof.
  intros R. apply regular_spec in R. destruct R as [N F].
  unfold reindex. rewrite <- (map_id (data df)) at 2.
  apply map_ext_in. intros r Hr. rewrite Forall_forall in F.
  now apply row_get_self; [|apply F].
Qed.

Lemma flat_map_agree {A B} (f g : A -> list B) l :
  (forall x, In x l -> f x = g x) -> flat_map f l = flat_map g l.
Proof.
  induction l as [|x l IH]; intros H; [reflexivity|]. cbn [flat_map].
  rewrite (H x) by now left. rewrite IH; [reflexivity|].
  intros y Hy. apply H. now right.
Qed.

(** On regular frames [concat] is the outer join, also when the labels
    are the same. *)
Lemma concat_regular objs :
  objs <> [] ->
  Forall (fun x => regular x = true) objs ->
  concat objs
  = Some {| columns := fold_left union_columns (map columns objs) [];
            data := flat_map (reindex (fold_left union_columns
                                         (map columns objs) []))
                             objs |}.
Proof.
  intros Hne F. destruct objs as [|o objs]; [congruence|].
  unfold concat. rewrite Forall_forall in F.
  destruct (same_labels (o :: objs)) eqn:S.
  - assert (Hsame : forall x, In x (o :: objs) -> columns x = columns o).
    { intros x [<-|Hx]; [reflexivity|]. cbn [same_labels] in S.
      rewrite forallb_forall in S. now apply labels_eqb_eq, S. }
    assert (No : NoDup (columns o)).
    { apply (regular_spec o), F. now left. }
    rewrite (fold_union_same (columns o) (o :: objs) No Hsame Hne).
    f_equal. f_equal. apply flat_map_agree. intros x Hx.
    rewrite <- (Hsame x Hx). symmetry. apply reindex_self. now apply F.
  - assert (U : forallb (fun x => unique (columns x)) (o :: objs) = true).
    { apply forallb_forall. intros x Hx. apply unique_NoDup.
      now apply (regular_spec x), F. }
    now rewrite U.
Qed.

(** Appending the one-row frame of a record to the frame of earlier
    records gives the frame of all of them. *)
Lemma concat_of_records pre d :
  concat [of_records pre; of_records [d]]
  = Some (of_records (pre ++ [d])).
Proof.
  rewrite concat_regular;
    [|discriminate
     |repeat constructor; apply regular_of_records].
  assert (C : fold_left union_columns
                (map columns [of_records pre; of_records [d]]) []
              = columns (of_records (pre ++ [d]))).
  { rewrite columns_of_records_snoc. cbn [map fold_left].
    rewrite (union_columns_nil (columns (of_records pre)))
      by apply NoDup_columns_of_records.
    change (columns (of_records [d])) with (union_columns [] (keys d)).
    apply union_columns_dedup. }
  rewrite C. f_equal.
  set (cols := columns (of_records (pre ++ [d]))).
  unfold of_records at 3. fold cols. f_equal.
  cbn [flat_map]. rewrite app_nil_r, map_app. f_equal.
  - unfold reindex. cbn [data columns of_records]. rewrite map_map.
    apply map_ext_in. intros r Hr. apply map_ext_in. intros c Hc.
    apply row_get_record. intros k Hk.
    apply (In_columns_of_records k pre). eauto.
  - apply reindex_single.
Qed.

(** One [concat] of the one-row frames is the frame of the records. *)
Lemma flat_map_reindex_single cols records :
  flat_map (reindex cols) (map (fun d => of_records [d]) records)
  = map (fun d => map (fun c => get c d) cols) records.
Proof.
  induction records as [|d records IH]; [reflexivity|].
  cbn [map flat_map]. rewrite reindex_single, IH. reflexivity.
Qed.

Lemma concat_singles records :
  concat (map (fun d => of_records [d]) records)
  = match records with [] => None | _ => Some (of_records records) end.
Proof.
  destruct records as [|d0 records]; [reflexivity|].
  set (l := d0 :: records).
  rewrite concat_regular.
  - assert (C : fold_left union_columns
                  (map columns (map (fun d => of_records [d]) l)) []
                = columns (of_records l)).
    { rewrite map_map. apply (fold_union_dedup l []). }
    rewrite C, flat_map_reindex_single. reflexivity.
  - discriminate.
  - apply Forall_forall. intros x Hx. apply in_map_iff in Hx.
    destruct Hx as (d & <- & _). apply regular_of_records.
Qed.

(** The append of [build_database] on a regular frame, written out. *)
Lemma concat_two df d :
  regular df = true ->
  concat [df; of_records [d]]
  = let cols := union_columns (columns df) (keys d) in
    Some {| columns := cols;
            data := reindex cols df ++ [map (fun c => get c d) cols] |}.
Proof.
  intros R. rewrite concat_regular;
    [|discriminate
     |repeat constructor; [exact R | apply regular_of_records]].
  cbn [map fold_left flat_map].
  rewrite (union_columns_nil (columns df))
    by now apply (regular_spec df).
  change (columns (of_records [d])) with (union_columns [] (keys d)).
  rewrite union_columns_dedup, reindex_single, app_nil_r. reflexivity.
Qed.

(** Appending to a frame with distinct labels works and keeps the labels
    distinct. *)
Lemma concat_distinct df d :
  unique (columns df) = true ->
  exists df',
    concat [df; of_records [d]] = Some df'
    /\ unique (columns df') = true.
Proof.
  intros U. unfold concat.
  destruct (same_labels [df; of_records [d]]).
  - eexists. split; [reflexivity | exact U].
  - cbn [forallb]. rewrite U.
    assert (U1 : unique (columns (of_records [d])) = true)
      by apply unique_NoDup, NoDup_columns_of_records.
    rewrite U1. cbn [andb]. eexists. split; [reflexivity|].
    apply unique_NoDup, NoDup_fold_union. constructor.
Qed.

End PandasFacts.

(* ================================================================== *)
(** ** Properties of the methods *)
(* ================================================================== *)

Module ScrapingFacts.

Import Bs4 PyDict Pandas Scraping Spec PyDictFacts PandasFacts.

Lemma wf_get_table_dict table : wf (get_table_dict table).
Proof.
  unfold get_table_dict.
  assert (G : forall l d, wf d -> wf (fold_left table_row_step l d)).
  { induction l as [|tr l IH]; intros d W; simpl; [exact W|].
    apply IH. unfold table_row_step.
    destruct (find "th" tr); [|exact W].
    destruct (find "td" tr); [|exact W].
    now apply wf_set. }
  apply G. constructor.
Qed.

Lemma for_each_app {A} (body : A -> M unit) l1 l2 st :
  for_each (l1 ++ l2) body st
  = match for_each l1 body st with
    | (Ok _, st') => for_each l2 body st'
    | (Raise e, st') => (Raise e, st')
    end.
Proof.
  revert st. induction l1 as [|x l1 IH]; intros st; simpl; [reflexivity|].
  unfold bind. destruct (body x st) as [[[]|e] st1]; [apply IH|reflexivity].
Qed.

(** A loop whose body only rewrites the dictionary is a fold. *)
Lemma for_each_set_dict {A} (f : dict -> A -> dict) l st :
  for_each l (fun x =>
                modify (fun st => set_dict (f (pokemon_dict_data st) x) st))
           st
  = (Ok tt, set_dict (fold_left f l (pokemon_dict_data st)) st).
Proof.
  revert st. induction l as [|x l IH]; intros st; simpl.
  - destruct st; reflexivity.
  - unfold bind, modify. rewrite IH. destruct st; reflexivity.
Qed.

(** The three ways [get_pokemon_data] ends. *)
Lemma get_pokemon_data_eq web url st :
  get_pokemon_data web url st
  = match web url with
    | None => (Raise RequestException, st)
    | Some page =>
        match soup_select_one selector_name page with
        | None => (Raise AttributeError, set_soup page st)
        | Some h =>
            (Ok tt,
             set_dict (merged page
                         (set name_key (get_text "" h)
                              (pokemon_dict_data st)))
                      (set_soup page st))
        end
    end.
Proof.
  unfold get_pokemon_data, fetch_soup, bind, the_soup, raise, modify.
  destruct (web url) as [page|]; [|reflexivity]. cbn [soup set_soup].
  destruct (soup_select_one selector_name page) as [h|]; [|reflexivity].
  rewrite (for_each_set_dict (fun d t => update d (get_table_dict t))).
  destruct st; reflexivity.
Qed.

Lemma n_rows_concat df d df' :
  concat [df; of_records [d]] = Some df' -> n_rows df' = S (n_rows df).
Proof.
  unfold concat. intros H.
  destruct (same_labels [df; of_records [d]]).
  - injection H as <-. unfold n_rows. cbn [data flat_map].
    rewrite !length_app. cbn. lia.
  - destruct (forallb (fun x => unique (columns x)) [df; of_records [d]]);
      [|discriminate].
    injection H as <-. unfold n_rows. cbn [data flat_map].
    unfold reindex. rewrite !length_app, !length_map. cbn. lia.
Qed.

(** The ways [build_database] ends. *)
Lemma build_database_unfold st :
  build_database st
  = match dataframe st with
    | None =>
        (Ok tt, set_dataframe (of_records [pokemon_dict_data st]) st)
    | Some df =>
        match concat [df; of_records [pokemon_dict_data st]] with
        | Some df' => (Ok tt, set_dataframe df' st)
        | None => (Raise InvalidIndexError, st)
        end
    end.
Proof.
  unfold build_database, bind, read, modify.
  destruct (dataframe st) as [df|]; [|reflexivity].
  now destruct (concat [df; of_records [pokemon_dict_data st]]).
Qed.

(** On a table with distinct labels [build_database] succeeds and keeps
    the labels distinct. *)
Lemma build_database_eq st :
  distinct_labels st = true ->
  exists df',
    build_database st = (Ok tt, set_dataframe df' st)
    /\ unique (columns df') = true
    /\ match dataframe st with
       | None => df' = of_records [pokemon_dict_data st]
       | Some df => concat [df; of_records [pokemon_dict_data st]] = Some df'
       end.
Proof.
  unfold distinct_labels. intros U. rewrite build_database_unfold.
  destruct (dataframe st) as [df|].
  - destruct (concat_distinct df (pokemon_dict_data st) U) as (df' & C & U').
    rewrite C. exists df'. now repeat split.
  - eexists. split; [reflexivity|]. split; [|reflexivity].
    apply unique_NoDup, NoDup_columns_of_records.
Qed.

Lemma build_database_rows st :
  distinct_labels st = true ->
  exists st', build_database st = (Ok tt, st')
              /\ table_rows st' = S (table_rows st)
              /\ pokemon_dict_data st' = pokemon_dict_data st
              /\ distinct_labels st' = true.
Proof.
  intros U. destruct (build_database_eq st U) as (df' & E & U' & H).
  exists (set_dataframe df' st). split; [exact E|].
  split; [|split; [reflexivity | exact U']].
  unfold table_rows. cbn [dataframe set_dataframe].
  destruct (dataframe st) as [df|].
  - now apply n_rows_concat in H.
  - subst df'. reflexivity.
Qed.

(** However [build_database] ends, it adds one row or none, and it keeps
    a table it was given. *)
Lemma build_database_any st :
  let st' := snd (build_database st) in
  (st' = st \/ table_rows st' = S (table_rows st))
  /\ (dataframe st' = None -> dataframe st = None)
  /\ pokemon_url_suffixes st' = pokemon_url_suffixes st
  /\ (distinct_labels st = true -> distinct_labels st' = true).
Proof.
  cbv zeta. rewrite build_database_unfold. unfold table_rows.
  destruct (dataframe st) as [df|] eqn:E.
  - destruct (concat [df; of_records [pokemon_dict_data st]]) as [df'|] eqn:C;
      cbn [snd dataframe set_dataframe pokemon_url_suffixes].
    + split; [right; now apply n_rows_concat in C|].
      split; [discriminate|]. split; [reflexivity|].
      unfold distinct_labels. rewrite E. cbn [dataframe set_dataframe].
      intros U.
      destruct (concat_distinct df (pokemon_dict_data st) U)
        as (df2 & C2 & U2). congruence.
    + rewrite E. split; [now left|]. split; [discriminate|].
      split; [reflexivity|]. unfold distinct_labels. now rewrite E.
  - cbn [snd dataframe set_dataframe pokemon_url_suffixes].
    split; [right; reflexivity|]. split; [discriminate|].
    split; [reflexivity|]. intros _. unfold distinct_labels.
    cbn [dataframe set_dataframe].
    apply unique_NoDup, NoDup_columns_of_records.
Qed.

(** The ways [get_urls] ends. *)
Lemma get_urls_eq web st :
  get_urls web st
  = match url_path st with
    | None => (Raise RequestException, st)
    | Some url =>
        match web url with
        | None => (Raise RequestException, st)
        | Some page =>
            match hrefs (soup_select selector_cards page) with
            | Ok l => (Ok tt, set_suffixes l (set_soup page st))
            | Raise e => (Raise e, set_soup page st)
            end
        end
    end.
Proof.
  unfold get_urls, bind, read, fetch_soup, the_soup, raise, modify.
  destruct (url_path st) as [url|]; [|reflexivity].
  destruct (web url) as [page|]; [|reflexivity]. cbn [soup set_soup].
  now destruct (hrefs (soup_select selector_cards page)).
Qed.

Lemma run_scraping_eq web st :
  run_scraping web st
  = match get_urls web st with
    | (Ok _, st') =>
        for_each (pokemon_url_suffixes st') (scrape_one web) st'
    | (Raise e, st') => (Raise e, st')
    end.
Proof. reflexivity. Qed.

(** [get_urls] leaves the table alone. *)
Lemma get_urls_dataframe web st :
  dataframe (snd (get_urls web st)) = dataframe st.
Proof.
  rewrite get_urls_eq. destruct (url_path st) as [url|]; [|reflexivity].
  destruct (web url) as [page|]; [|reflexivity].
  now destruct (hrefs (soup_select selector_cards page)).
Qed.

(** What every iteration preserves holds after the loop, however it
    ends. *)
Lemma for_each_invariant {A} (P : PokemonScraping -> Prop)
      (body : A -> M unit) :
  (forall x st, P st -> P (snd (body x st))) ->
  forall l st, P st -> P (snd (for_each l body st)).
Proof.
  intros Hbody. induction l as [|x l IH]; intros st H; simpl; [exact H|].
  unfold bind. specialize (Hbody x st H).
  destruct (body x st) as [[[]|e] st1]; simpl in Hbody; [|exact Hbody].
  now apply IH.
Qed.

(** An entity whose page has the heading adds one row to a table with
    distinct labels. *)
Lemma scrape_one_ok web suffix st :
  distinct_labels st = true ->
  has_heading web suffix = true ->
  exists st',
    scrape_one web suffix st = (Ok tt, st')
    /\ table_rows st' = S (table_rows st)
    /\ distinct_labels st' = true.
Proof.
  unfold has_heading, scrape_one, bind. intros U H.
  rewrite get_pokemon_data_eq.
  destruct (web (build_pokemon_url suffix)) as [page|]; [|discriminate].
  destruct (soup_select_one selector_name page) as [h|]; [|discriminate].
  match goal with |- context [build_database ?s] =>
    destruct (build_database_rows s U) as (st' & E & R & _ & U') end.
  exists st'. split; [exact E|]. rewrite R. now split.
Qed.

Lemma scrape_all_ok web l : forall st,
  distinct_labels st = true ->
  forallb (has_heading web) l = true ->
  exists st',
    for_each l (scrape_one web) st = (Ok tt, st')
    /\ table_rows st' = table_rows st + List.length l
    /\ distinct_labels st' = true.
Proof.
  induction l as [|x l IH]; intros st U H; simpl in *.
  - exists st. split; [reflexivity | split; [lia | exact U]].
  - apply andb_prop in H. destruct H as [Hx Hl].
    destruct (scrape_one_ok web x st U Hx) as (st1 & E1 & R1 & U1).
    destruct (IH st1 U1 Hl) as (st2 & E2 & R2 & U2).
    exists st2. unfold bind. rewrite E1.
    split; [exact E2 | split; [lia | exact U2]].
Qed.

(** No iteration touches the link list. *)
Lemma scrape_one_suffixes web suffix st :
  pokemon_url_suffixes (snd (scrape_one web suffix st))
  = pokemon_url_suffixes st.
Proof.
  unfold scrape_one, bind. rewrite get_pokemon_data_eq.
  destruct (web (build_pokemon_url suffix)) as [page|]; [|reflexivity].
  destruct (soup_select_one selector_name page) as [h|]; [|reflexivity].
  match goal with |- context [build_database ?s] =>
    destruct (build_database_any s) as (_ & _ & S & _);
    destruct (build_database s) as [[[]|e] s'] end; exact S.
Qed.

(** An entity whose page lacks the heading raises and adds no row. *)
Lemma scrape_one_no_heading web suffix st :
  lacks_heading web suffix = true ->
  exists st',
    scrape_one web suffix st = (Raise AttributeError, st')
    /\ table_rows st' = table_rows st.
Proof.
  unfold lacks_heading, scrape_one, bind. intros H.
  rewrite get_pokemon_data_eq.
  destruct (web (build_pokemon_url suffix)) as [page|]; [|discriminate].
  destruct (soup_select_one selector_name page) as [h|]; [discriminate|].
  eexists. split; reflexivity.
Qed.

End ScrapingFacts.

(* ================================================================== *)
(** ** The listing extractor *)
(* ================================================================== *)

Module Listing.

Import Bs4 PyDict Pandas Scraping Spec Samples.




End Listing.

(* ================================================================== *)
(** ** The detail extractor *)
(* ================================================================== *)

Module Detail.

Import Bs4 PyDict Pandas Scraping Spec Samples PyDictFacts ScrapingFacts.

Lemma merged_app ts1 ts2 d :
  fold_left (fun d t => update d (get_table_dict t)) (ts1 ++ ts2) d
  = fold_left (fun d t => update d (get_table_dict t)) ts2
      (fold_left (fun d t => update d (get_table_dict t)) ts1 d).
Proof. apply fold_left_app. Qed.

(** Tables that lack a key leave its entry alone. *)
Lemma get_fold_absent k ts : forall d,
  (forall t, In t ts -> get k (get_table_dict t) = None) ->
  get k (fold_left (fun d t => update d (get_table_dict t)) ts d)
  = get k d.
Proof.
  induction ts as [|t ts IH]; intros d H; simpl; [reflexivity|].
  rewrite IH by (intros; apply H; now right).
  apply get_update_absent. apply H. now left.
Qed.

Lemma wf_fold ts : forall d,
  wf d -> wf (fold_left (fun d t => update d (get_table_dict t)) ts d).
Proof.
  induction ts as [|t ts IH]; intros d W; simpl; [exact W|].
  apply IH. now apply wf_update.
Qed.

Lemma In_keys_fold k ts : forall d,
  In k (keys (fold_left (fun d t => update d (get_table_dict t)) ts d))
  <-> In k (keys d)
      \/ In k (flat_map (fun t => keys (get_table_dict t)) ts).
Proof.
  induction ts as [|t ts IH]; intros d; simpl; [tauto|].
  rewrite IH, In_keys_update, in_app_iff. tauto.
Qed.

(** Merging tables reads through to the old value only where the tables
    have none. *)
Lemma get_fold_overlay k ts : forall d,
  get k (fold_left (fun d t => update d (get_table_dict t)) ts d)
  = match get k (fold_left (fun d t => update d (get_table_dict t))
                           ts empty) with
    | Some x => Some x
    | None => get k d
    end.
Proof.
  induction ts as [|t ts IH]; intros d; [reflexivity|].
  cbn [fold_left]. rewrite (IH (update d (get_table_dict t))).
  rewrite (IH (update empty (get_table_dict t))).
  destruct (get k (fold_left (fun d t => update d (get_table_dict t))
                             ts empty)); [reflexivity|].
  destruct (get k (get_table_dict t)) as [v|] eqn:E.
  - rewrite !(get_update_present k v) by (apply wf_get_table_dict || exact E).
    reflexivity.
  - now rewrite !get_update_absent by exact E.
Qed.

(** What the extraction leaves under the name key. *)
Lemma get_name_merged page h d :
  get name_key (merged page (set name_key (get_text "" h) d))
  = Some (stored_name page h).
Proof.
  unfold stored_name, merged. rewrite get_fold_overlay.
  destruct (get name_key
              (fold_left (fun d t => update d (get_table_dict t))
                         (attribute_tables page) empty));
    [reflexivity | apply get_set_same].
Qed.

(** The value of the last table that has the key is the one kept. *)
Lemma later_table_wins page d ts1 t ts2 k v :
  attribute_tables page = (ts1 ++ t :: ts2)%list ->
  get k (get_table_dict t) = Some v ->
  (forall t', In t' ts2 -> get k (get_table_dict t') = None) ->
  get k (merged page d) = Some v.
Proof.
  intros E Hk Hlater. unfold merged. rewrite E, merged_app. simpl.
  rewrite get_fold_absent by assumption.
  apply get_update_present; [apply wf_get_table_dict | exact Hk].
Qed.

(** From an empty dictionary the keys are the name key and the keys of
    the tables, each once. *)
Lemma fresh_key_count page v :
  ~ In name_key (contributed_keys page) ->
  List.length (keys (merged page (set name_key v empty)))
  = unique_pairs page + 1.
Proof.
  intros Hn. unfold unique_pairs.
  set (ks := nodup string_dec (contributed_keys page)).
  replace (List.length ks + 1) with (List.length (name_key :: ks))
    by (simpl; lia).
  apply Permutation_length, NoDup_Permutation.
  - apply wf_fold. repeat constructor. intros [].
  - constructor; [|apply NoDup_nodup].
    unfold ks. now rewrite nodup_In.
  - intros k. unfold merged. rewrite In_keys_fold. unfold ks. simpl.
    rewrite nodup_In. unfold contributed_keys. intuition auto.
Qed.

(** C5, amended: called with an empty dictionary on a page that has the
    heading and whose tables contribute M distinct keys, none of them the
    name key, [get_pokemon_data] leaves exactly M+1 keys, the name key
    holding the trimmed heading; on a key several tables have, the value
    of the last table in document order is kept. *)
Theorem extracted_key_count web url page h st :
  web url = Some page ->
  soup_select_one selector_name page = Some h ->
  pokemon_dict_data st = empty ->
  mem name_key (contributed_keys page) = false ->
  exists st',
    get_pokemon_data web url st = (Ok tt, st')
    /\ List.length (keys (pokemon_dict_data st')) = unique_pairs page + 1
    /\ get name_key (pokemon_dict_data st') = Some (get_text "" h)
    /\ last_write_wins page (pokemon_dict_data st').
Proof.
  intros Hw Hh He Hn. apply mem_not_In in Hn.
  rewrite get_pokemon_data_eq, Hw, Hh. eexists. split; [reflexivity|].
  cbn [pokemon_dict_data set_dict]. rewrite He. repeat split.
  - now apply fresh_key_count.
  - unfold merged. rewrite get_fold_absent.
    + apply get_set_same.
    + intros t Ht. apply get_None_keys. intros Hk. apply Hn.
      unfold contributed_keys. apply in_flat_map. eauto.
  - intros ts1 t ts2 k v. apply later_table_wins.
Qed.

Lemma extracted_key_count_witness :
  let url := "https://pokemondb.net/pokedex/3" in
  let web := site [(url, venusaur)] in
  let st := new None in
  exists h,
    web url = Some venusaur
    /\ soup_select_one selector_name venusaur = Some h
    /\ pokemon_dict_data st = empty
    /\ mem name_key (contributed_keys venusaur) = false
    /\ exists st',
         get_pokemon_data web url st = (Ok tt, st')
         /\ List.length (keys (pokemon_dict_data st'))
            = unique_pairs venusaur + 1
         /\ get name_key (pokemon_dict_data st') = Some (get_text "" h)
         /\ last_write_wins venusaur (pokemon_dict_data st').
Proof.
  intros url web st.
  destruct (soup_select_one selector_name venusaur) as [h|] eqn:E;
    [|discriminate].
  exists h. split; [reflexivity|]. split; [reflexivity|].
  split; [reflexivity|]. split; [reflexivity|].
  apply (extracted_key_count web url venusaur h st);
    [reflexivity | exact E | reflexivity | reflexivity].
Defined.

(** C5 as stated fails: on a fresh scraper, a page whose one table row is
    labelled [Pokemon Name] contributes one unique pair, and the
    dictionary ends with one key, not two. *)
Lemma extracted_key_count_reserved_clash :
  let url := "https://pokemondb.net/pokedex/25" in
  let st' := snd (get_pokemon_data (site [(url, pikachu)]) url (new None)) in
  (exists h, soup_select_one selector_name pikachu = Some h)
  /\ unique_pairs pikachu = 1
  /\ pokemon_dict_data st' = [("Pokemon Name", "Raichu")]
  /\ List.length (keys (pokemon_dict_data st')) <> unique_pairs pikachu + 1.
Proof.
  cbv zeta. split; [eexists; reflexivity|].
  split; [reflexivity|]. split; [reflexivity|]. vm_compute. discriminate.
Qed.

(** C10: a key of the shared dictionary for which the page contributes no
    pair has the same value after [get_pokemon_data] as before, however
    the call ends. *)
Theorem stale_keys_carry_over web url st k v :
  get k (pokemon_dict_data st) = Some v ->
  contributes web url k = false ->
  get k (pokemon_dict_data (snd (get_pokemon_data web url st))) = Some v.
Proof.
  intros Hk Hc. rewrite get_pokemon_data_eq. unfold contributes in Hc.
  destruct (web url) as [page|]; [|exact Hk].
  destruct (soup_select_one selector_name page) as [h|]; [|exact Hk].
  apply orb_false_elim in Hc. destruct Hc as [Hname Hmem].
  rewrite andb_true_r in Hname. apply String.eqb_neq in Hname.
  apply mem_not_In in Hmem.
  cbn [snd pokemon_dict_data set_dict]. unfold merged.
  rewrite get_fold_absent.
  - now rewrite get_set_other.
  - intros t Ht. apply get_None_keys. intros Hin. apply Hmem.
    unfold contributed_keys. apply in_flat_map. eauto.
Qed.

Lemma stale_keys_carry_over_witness :
  let url := "https://pokemondb.net/pokedex/2" in
  let st := set_dict [("Pokemon Name", "Bulbasaur");
                      ("Type", "Grass / Poison")] (new None) in
  get "Type" (pokemon_dict_data st) = Some "Grass / Poison"
  /\ contributes two_entities url "Type" = false
  /\ get "Type"
       (pokemon_dict_data (snd (get_pokemon_data two_entities url st)))
     = Some "Grass / Poison".
Proof.
  intros url st. split; [reflexivity|]. split; [reflexivity|].
  apply (stale_keys_carry_over two_entities url st "Type" "Grass / Poison");
    reflexivity.
Defined.

End Detail.

(* ================================================================== *)
(** ** The table accumulator *)
(* ================================================================== *)

Module Accumulator.

Import Bs4 PyDict Pandas Scraping Spec Samples.
Import PyDictFacts PandasFacts ScrapingFacts.

Lemma table_of_snoc pre d :
  table_of (pre ++ [d]) = Some (of_records (pre ++ [d])).
Proof. unfold table_of. now destruct pre. Qed.

(** One append after the rows [pre] gives the table of [pre] and the new
    row. *)
Lemma build_database_snoc pre st :
  dataframe st = table_of pre ->
  exists st',
    build_database st = (Ok tt, st')
    /\ dataframe st' = table_of (pre ++ [pokemon_dict_data st]).
Proof.
  intros H. rewrite build_database_unfold, H, table_of_snoc.
  destruct pre as [|d0 pre]; cbn [table_of].
  - eexists. split; reflexivity.
  - rewrite concat_of_records. eexists. split; reflexivity.
Qed.

Lemma accumulate_from rows : forall pre st,
  dataframe st = table_of pre ->
  exists st',
    accumulate rows st = (Ok tt, st')
    /\ dataframe st' = table_of (pre ++ rows).
Proof.
  induction rows as [|d rows IH]; intros pre st H.
  - exists st. rewrite app_nil_r. now split.
  - destruct (build_database_snoc pre (set_dict d st) H) as (st1 & E1 & H1).
    cbn [pokemon_dict_data set_dict] in H1.
    destruct (IH (pre ++ [d])%list st1 H1) as (st2 & E2 & H2).
    exists st2. split.
    + unfold accumulate in *. cbn [for_each]. unfold bind at 1 2.
      unfold modify at 1. rewrite E1. exact E2.
    + now rewrite <- app_assoc in H2.
Qed.

Lemma column_union_of_records rows : column_union rows (of_records rows).
Proof.
  split; [|split].
  - intros c. apply In_columns_of_records.
  - unfold n_rows. cbn [data of_records]. apply length_map.
  - intros i d Hi. cbn [data of_records columns].
    rewrite nth_error_map, Hi. cbn [option_map]. eexists.
    split; [reflexivity|]. split; [apply length_map|].
    intros c. apply row_get_record. intros k Hk.
    apply (In_columns_of_records k rows). eauto using nth_error_In.
Qed.

(** C4: rows appended one after the other to an unset table leave it unset
    when there was no row; otherwise the columns of the table are exactly
    the keys of the rows, and each table row has a cell under every
    column, with the value of its appended row where that row has the key
    and missing where it has not, whether the column came before or
    after that row. *)
Theorem accumulate_column_union rows st :
  dataframe st = None ->
  exists st',
    accumulate rows st = (Ok tt, st')
    /\ match dataframe st' with
       | None => rows = []
       | Some t => rows <> [] /\ column_union rows t
       end.
Proof.
  intros H. destruct (accumulate_from rows [] st H) as (st' & E & Ht).
  exists st'. split; [exact E|]. rewrite Ht. cbn [app].
  destruct rows as [|d rows]; cbn [table_of]; [reflexivity|].
  split; [discriminate | apply column_union_of_records].
Qed.

Lemma accumulate_column_union_witness :
  let st := new None in
  dataframe st = None
  /\ exists st',
       accumulate three_rows st = (Ok tt, st')
       /\ match dataframe st' with
          | None => three_rows = []
          | Some t => three_rows <> [] /\ column_union three_rows t
          end.
Proof.
  intros st. split; [reflexivity|].
  apply (accumulate_column_union three_rows st). reflexivity.
Defined.

(** C7: appending rows one at a time to an unset table gives the table a
    single [concat] of all their one-row frames gives: the same columns in
    the same order and the same rows in the same order, and no table at
    all when there is no row. *)
Theorem accumulate_is_batch rows st :
  dataframe st = None ->
  exists st',
    accumulate rows st = (Ok tt, st') /\ dataframe st' = batch rows.
Proof.
  intros H. destruct (accumulate_from rows [] st H) as (st' & E & Ht).
  exists st'. split; [exact E|]. rewrite Ht. unfold batch.
  now rewrite concat_singles.
Qed.

Lemma accumulate_is_batch_witness :
  let st := new None in
  dataframe st = None
  /\ exists st',
       accumulate three_rows st = (Ok tt, st')
       /\ dataframe st' = batch three_rows.
Proof.
  intros st. split; [reflexivity|].
  apply (accumulate_is_batch three_rows st). reflexivity.
Defined.

End Accumulator.

(* ================================================================== *)
(** ** The persistence sink *)
(* ================================================================== *)

Module Sink.

Import Bs4 PyDict Pandas Scraping Spec Samples.
Import PyDictFacts ScrapingFacts.

(** C2, amended: with the table unset, [save_dataframe_to_oracle] raises
    its [ValueError] whatever the connection dictionary, and the server is
    left as it was: no connection attempt, no table written. *)
Theorem save_unset_table_raises conn st db :
  dataframe st = None ->
  save_dataframe_to_oracle conn st db
  = (Raise (ValueError "DataFrame is empty. Run scraping first."), db).
Proof. intros H. unfold save_dataframe_to_oracle. now rewrite H. Qed.

Lemma save_unset_table_raises_witness :
  let st := new (Some catalogue) in
  dataframe st = None
  /\ save_dataframe_to_oracle connection st fresh_db
     = (Raise (ValueError "DataFrame is empty. Run scraping first."),
        fresh_db).
Proof.
  intros st. split; [reflexivity|].
  apply (save_unset_table_raises connection st fresh_db). reflexivity.
Defined.

(** C2 as stated fails: a frame with zero rows that is not [None] passes
    the guard; the save connects and writes an empty table. *)
Lemma save_zero_row_frame_reaches_store :
  table_rows hand_built = 0
  /\ fst (save_dataframe_to_oracle connection hand_built fresh_db) = Ok tt
  /\ connections
       (snd (save_dataframe_to_oracle connection hand_built fresh_db))
     = [("ash", "pallet", "db.example.org:1521/XEPDB1")]
  /\ tables (snd (save_dataframe_to_oracle connection hand_built fresh_db))
     = [("master_pokemon",
         {| columns := ["Pokemon Name"]; data := [] |})].
Proof. repeat split. Qed.

(** A run leaves the table unset or with at least one row, so the unset
    table is the only zero-row table a run hands to the sink. *)
Lemma run_leaves_unset_or_rows web st :
  dataframe st = None \/ 0 < table_rows st ->
  let st' := snd (run_scraping web st) in
  dataframe st' = None \/ 0 < table_rows st'.
Proof.
  intros H. cbv zeta. rewrite run_scraping_eq.
  pose proof (get_urls_dataframe web st) as D.
  destruct (get_urls web st) as [[[]|e] st0]; cbn [snd] in *.
  - apply (for_each_invariant
             (fun s => dataframe s = None \/ 0 < table_rows s)).
    + intros x s Hs. unfold scrape_one, bind.
      rewrite get_pokemon_data_eq.
      destruct (web (build_pokemon_url x)) as [page|]; [|exact Hs].
      destruct (soup_select_one selector_name page) as [h|]; [|exact Hs].
      match goal with |- context [build_database ?s] =>
        destruct (build_database_any s) as ([E|R] & _) end.
      * rewrite E. exact Hs.
      * right. lia.
    + unfold table_rows in *. rewrite D. exact H.
  - unfold table_rows in *. rewrite D. exact H.
Qed.

Ltac read_key k :=
  match goal with
  | |- context [getitem k ?conn] =>
      unfold getitem at 1;
      let E := fresh "E" in
      destruct (get k conn) eqn:E;
      [ | exists k; split; [cbv; tauto | split; [exact E | reflexivity]] ]
  end.

(** C9: with a table to save, a connection dictionary that lacks one of
    the six keys makes [save_dataframe_to_oracle] raise [KeyError] for the
    first key it fails to read; nothing stands in for the missing value
    and the server is left as it was. *)
Theorem save_missing_key_raises conn st db df :
  dataframe st = Some df ->
  missing_key conn = true ->
  exists k,
    In k required_keys
    /\ get k conn = None
    /\ save_dataframe_to_oracle conn st db = (Raise (KeyError k), db).
Proof.
  intros Hdf Hmiss. unfold save_dataframe_to_oracle. rewrite Hdf.
  read_key "user". read_key "password". read_key "host".
  read_key "port". read_key "service". read_key "table_name".
  exfalso. unfold missing_key, required_keys in Hmiss. cbn [existsb] in Hmiss.
  rewrite E, E0, E1, E2, E3, E4 in Hmiss. discriminate.
Qed.

Lemma save_missing_key_raises_witness :
  let st := set_dataframe (of_records three_rows) (new None) in
  dataframe st = Some (of_records three_rows)
  /\ missing_key connection_without_port = true
  /\ exists k,
       In k required_keys
       /\ get k connection_without_port = None
       /\ save_dataframe_to_oracle connection_without_port st fresh_db
          = (Raise (KeyError k), fresh_db).
Proof.
  intros st. split; [reflexivity|]. split; [reflexivity|].
  apply (save_missing_key_raises connection_without_port st fresh_db
           (of_records three_rows)); reflexivity.
Defined.

End Sink.

(* ================================================================== *)
(** ** The run *)
(* ================================================================== *)

Module Pipeline.

Import Bs4 PyDict Pandas Scraping Spec Samples.
Import PyDictFacts PandasFacts ScrapingFacts.

(** C1: on the two-entity catalogue the run succeeds with two rows under
    the columns [Pokemon Name] and [Type], and the first row is
    Bulbasaur's; the [Type] cell of Ivysaur's row is not empty, it holds
    the value left in the shared dictionary by Bulbasaur's page. *)
Theorem two_entities_run :
  run_scraping two_entities (new (Some catalogue))
  = (Ok tt,
     {| url_path := Some catalogue;
        pokemon_url_suffixes := ["/pokedex/1"; "/pokedex/2"];
        soup := Some ivysaur;
        pokemon_dict_data :=
          [("Pokemon Name", "Ivysaur"); ("Type", "Grass / Poison")];
        dataframe :=
          Some {| columns := ["Pokemon Name"; "Type"];
                  data := [[Some "Bulbasaur"; Some "Grass / Poison"];
                           [Some "Ivysaur"; Some "Grass / Poison"]] |} |}).
Proof. vm_compute. reflexivity. Qed.

(** C3: when the page of some entity lacks the primary heading and the
    pages of the entities before it were extracted, the script ends with
    the [AttributeError] raised by the extraction of that entity; the
    rows of the earlier entities are in memory, and the database is as it
    was before the script, with no connection attempt and no table
    written. *)
Theorem missing_heading_aborts_run web url conn db page l1 u l2 :
  web url = Some page ->
  hrefs (soup_select selector_cards page) = Ok (l1 ++ u :: l2)%list ->
  forallb (has_heading web) l1 = true ->
  lacks_heading web u = true ->
  (forall s,
      fst (get_pokemon_data web (build_pokemon_url u) s)
      = Raise AttributeError)
  /\ exists st,
       run_scraping web (new (Some url)) = (Raise AttributeError, st)
       /\ main web url conn db = (Raise AttributeError, st, db)
       /\ table_rows st = List.length l1.
Proof.
  intros Hw Hl Hpre Hu. split.
  { intros s. rewrite get_pokemon_data_eq. unfold lacks_heading in Hu.
    destruct (web (build_pokemon_url u)) as [pg|]; [|discriminate].
    now destruct (soup_select_one selector_name pg). }
  assert (R : exists st,
             run_scraping web (new (Some url)) = (Raise AttributeError, st)
             /\ table_rows st = List.length l1).
  { rewrite run_scraping_eq, get_urls_eq. cbn [url_path new].
    rewrite Hw, Hl. cbn [pokemon_url_suffixes set_suffixes].
    rewrite for_each_app.
    match goal with |- context [for_each l1 _ ?s] =>
      destruct (scrape_all_ok web l1 s eq_refl Hpre) as (st1 & E1 & R1 & _) end.
    rewrite E1. cbn [for_each]. unfold bind at 1.
    destruct (scrape_one_no_heading web u st1 Hu) as (st2 & E2 & R2).
    rewrite E2. exists st2. split; [reflexivity|].
    rewrite R2, R1. reflexivity. }
  destruct R as (st & E & Rows). exists st.
  split; [exact E|]. split; [|exact Rows].
  unfold main. now rewrite E.
Qed.

Lemma missing_heading_aborts_run_witness :
  let page := listing ["/pokedex/1"; "/pokedex/0"; "/pokedex/2"] in
  broken_second catalogue = Some page
  /\ hrefs (soup_select selector_cards page)
     = Ok (["/pokedex/1"] ++ "/pokedex/0" :: ["/pokedex/2"])%list
  /\ forallb (has_heading broken_second) ["/pokedex/1"] = true
  /\ lacks_heading broken_second "/pokedex/0" = true
  /\ (forall s,
         fst (get_pokemon_data broken_second
                (build_pokemon_url "/pokedex/0") s)
         = Raise AttributeError)
  /\ exists st,
       run_scraping broken_second (new (Some catalogue))
       = (Raise AttributeError, st)
       /\ main broken_second catalogue connection fresh_db
          = (Raise AttributeError, st, fresh_db)
       /\ table_rows st = List.length ["/pokedex/1"].
Proof.
  intros page. split; [reflexivity|]. split; [reflexivity|].
  split; [reflexivity|]. split; [reflexivity|].
  apply (missing_heading_aborts_run broken_second catalogue connection
           fresh_db page ["/pokedex/1"] "/pokedex/0" ["/pokedex/2"]);
    reflexivity.
Defined.

Lemma forallb_map {A B} (f : B -> bool) (g : A -> B) l :
  forallb f (map g l) = forallb (fun x => f (g x)) l.
Proof. induction l as [|x l IH]; simpl; congruence. Qed.

Lemma name_cells_table_of st rows :
  dataframe st = table_of rows -> name_cells st = map (get name_key) rows.
Proof.
  unfold name_cells. intros ->. destruct rows as [|d rows]; [reflexivity|].
  cbn [table_of]. set (l := d :: rows). cbn [data columns of_records].
  rewrite map_map. apply map_ext_in. intros x Hx.
  apply row_get_record. intros k Hk.
  apply (In_columns_of_records k l). eauto.
Qed.

(** Non-empty names, read off the cells. *)
Lemma name_nonempty_cells st :
  table_holds name_nonempty st
  = forallb (fun c : Cell => match c with
                             | Some s => negb (PyStr.is_empty s)
                             | None => false
                             end) (name_cells st).
Proof.
  unfold table_holds, name_cells, name_nonempty.
  destruct (dataframe st) as [df|]; [|reflexivity].
  now rewrite forallb_map.
Qed.

Lemma nonempty_entity_names web done :
  forallb (has_heading web) done = true ->
  forallb (fun c : Cell => match c with
                           | Some s => negb (PyStr.is_empty s)
                           | None => false
                           end) (map (entity_name web) done)
  = forallb (names_its_entity web) done.
Proof.
  induction done as [|u done IH]; intros H; [reflexivity|].
  cbn [forallb map] in *. apply andb_prop in H. destruct H as [Hu Hd].
  rewrite (IH Hd). f_equal. unfold names_its_entity.
  unfold has_heading in Hu. unfold entity_name.
  destruct (web (build_pokemon_url u)) as [page|]; [|discriminate].
  now destruct (soup_select_one selector_name page).
Qed.

(** The loop appends, for the entities it gets through, the dictionaries
    their extractions leave; each names its entity. *)
Lemma loop_records_names web l : forall pre st,
  dataframe st = table_of pre ->
  exists done rest snaps,
    l = (done ++ rest)%list
    /\ forallb (has_heading web) done = true
    /\ dataframe (snd (for_each l (scrape_one web) st))
       = table_of (pre ++ snaps)
    /\ map (get name_key) snaps = map (entity_name web) done.
Proof.
  assert (Stop : forall (l0 : list string) (s : PokemonScraping) pre0,
             dataframe s = table_of pre0 ->
             exists done rest snaps,
               l0 = (done ++ rest)%list
               /\ forallb (has_heading web) done = true
               /\ dataframe s = table_of (pre0 ++ snaps)
               /\ map (get name_key) snaps = map (entity_name web) done).
  { intros l0 s pre0 Hs. exists [], l0, []. rewrite (app_nil_r pre0).
    split; [reflexivity|]. split; [reflexivity|].
    split; [exact Hs | reflexivity]. }
  induction l as [|u l IH]; intros pre st Hdf.
  - now apply Stop.
  - cbn [for_each]. unfold bind at 1. unfold scrape_one at 1.
    unfold bind at 1. rewrite get_pokemon_data_eq.
    destruct (web (build_pokemon_url u)) as [page|] eqn:Hw.
    + destruct (soup_select_one selector_name page) as [h|] eqn:Hh.
      * set (d1 := merged page (set name_key (get_text "" h)
                                    (pokemon_dict_data st))).
        set (st1 := set_dict d1 (set_soup page st)).
        destruct (Accumulator.build_database_snoc pre st1 Hdf)
          as (st2 & E2 & H2).
        rewrite E2. cbn [pokemon_dict_data st1 set_dict] in H2.
        destruct (IH (pre ++ [d1])%list st2 H2)
          as (done & rest & snaps & El & Hd & Hs & Hn).
        exists (u :: done), rest, (d1 :: snaps).
        split; [now rewrite El|]. split.
        { cbn [forallb]. rewrite Hd. unfold has_heading.
          now rewrite Hw, Hh. }
        split; [now rewrite <- app_assoc in Hs|].
        assert (G : get name_key d1 = entity_name web u).
        { unfold entity_name. rewrite Hw, Hh.
          apply Detail.get_name_merged. }
        cbn [map]. now rewrite Hn, G.
      * now apply Stop.
    + now apply Stop.
Qed.

Lemma loop_names_recorded web l st :
  dataframe st = None ->
  names_recorded web l (snd (for_each l (scrape_one web) st)).
Proof.
  intros H.
  destruct (loop_records_names web l [] st H)
    as (done & rest & snaps & El & Hd & Hs & Hn).
  exists done, rest. split; [exact El|]. split; [exact Hd|].
  assert (C : name_cells (snd (for_each l (scrape_one web) st))
              = map (entity_name web) done).
  { rewrite (name_cells_table_of _ snaps Hs). exact Hn. }
  split; [exact C|].
  rewrite name_nonempty_cells, C. now apply nonempty_entity_names.
Qed.

(** C8, amended: in a run that starts without a table, at every point the
    rows appended so far are those of the first entities of the listing,
    in order, and each row holds under [Pokemon Name] the text the
    extraction stored for its entity: never a missing cell, and non-empty
    for every entity whose stored text is non-empty, so that all names are
    non-empty exactly when the stored names of the entities processed
    are.  This holds after any number of iterations of the loop and after
    the whole run, however they end. *)
Theorem name_column_holds_stored_names web st :
  dataframe st = None ->
  (forall l, names_recorded web l (snd (for_each l (scrape_one web) st)))
  /\ names_recorded web
       (pokemon_url_suffixes (snd (run_scraping web st)))
       (snd (run_scraping web st)).
Proof.
  intros H. split; [intros l; now apply loop_names_recorded|].
  rewrite run_scraping_eq, get_urls_eq.
  assert (Stop : forall e s, dataframe s = None ->
                             names_recorded web
                               (pokemon_url_suffixes (snd (@Raise unit e, s)))
                               (snd (@Raise unit e, s))).
  { intros e s Hs. exists [], (pokemon_url_suffixes s).
    unfold name_cells, table_holds. cbn [snd]. rewrite Hs.
    now repeat split. }
  destruct (url_path st) as [url|]; [|now apply Stop].
  destruct (web url) as [page|]; [|now apply Stop].
  destruct (hrefs (soup_select selector_cards page)) as [l|e];
    [|now apply Stop].
  cbn [pokemon_url_suffixes set_suffixes].
  set (st0 := set_suffixes l (set_soup page st)).
  assert (S : pokemon_url_suffixes (snd (for_each l (scrape_one web) st0))
              = l).
  { apply (for_each_invariant (fun x => pokemon_url_suffixes x = l));
      [|reflexivity].
    intros x s0 Hs0. now rewrite scrape_one_suffixes. }
  rewrite S. now apply loop_names_recorded.
Qed.

Lemma name_column_holds_stored_names_witness :
  let st := new (Some catalogue) in
  dataframe st = None
  /\ name_cells (snd (run_scraping two_entities st))
     = [Some "Bulbasaur"; Some "Ivysaur"]
  /\ (forall l,
         names_recorded two_entities l
           (snd (for_each l (scrape_one two_entities) st)))
  /\ names_recorded two_entities
       (pokemon_url_suffixes (snd (run_scraping two_entities st)))
       (snd (run_scraping two_entities st)).
Proof.
  intros st. split; [reflexivity|]. split; [reflexivity|].
  apply (name_column_holds_stored_names two_entities st). reflexivity.
Defined.

(** C8 as stated fails: a page whose heading has no text gives a row
    whose name is the empty string. *)
Lemma blank_heading_gives_empty_name :
  let st' := snd (run_scraping blank_heading (new (Some catalogue))) in
  dataframe st'
  = Some {| columns := ["Pokemon Name"]; data := [[Some ""]] |}
  /\ table_holds name_nonempty st' = false.
Proof. split; reflexivity. Qed.

End Pipeline.


(* ================================================================== *)
(** ** Further properties: [build_pokemon_url] and [get_table_dict] *)
(* ================================================================== *)

Module TableDict.

Import Bs4 PyDict Pandas Scraping Spec Observe.
Import PyDictFacts ScrapingFacts.

Lemma append_inj_l (p a b : string) : (p ++ a = p ++ b)%string -> a = b.
Proof.
  induction p as [|c p IH]; simpl; intros H; [exact H|].
  injection H as H. now apply IH.
Qed.

Lemma startswith_append (p a : string) :
  PyStr.startswith p (p ++ a)%string = true.
Proof.
  unfold PyStr.startswith. induction p as [|c p IH]; simpl.
  - now destruct a.
  - destruct (ascii_dec c c); [exact IH | congruence].
Qed.

Lemma length_append (p a : string) :
  String.length (p ++ a)%string = String.length p + String.length a.
Proof. induction p as [|c p IH]; simpl; congruence. Qed.

(** X1: [build_pokemon_url] puts the fixed origin in front of the suffix
    and nothing else: the address starts with the origin, is longer than
    the suffix by the length of the origin, and two suffixes give the same
    address only when they are the same. *)
Theorem build_pokemon_url_faithful a b :
  PyStr.startswith "https://pokemondb.net" (build_pokemon_url a) = true
  /\ String.length (build_pokemon_url a) = 21 + String.length a
  /\ (build_pokemon_url a = build_pokemon_url b <-> a = b).
Proof.
  split; [apply startswith_append|].
  split; [apply (length_append "https://pokemondb.net" a)|]. split.
  - apply append_inj_l.
  - now intros ->.
Qed.

Lemma build_pokemon_url_faithful_witness :
  build_pokemon_url "/pokedex/25" = "https://pokemondb.net/pokedex/25"
  /\ PyStr.startswith "https://pokemondb.net"
       (build_pokemon_url "/pokedex/25") = true
  /\ String.length (build_pokemon_url "/pokedex/25")
     = 21 + String.length "/pokedex/25"
  /\ (build_pokemon_url "/pokedex/25" = build_pokemon_url "/pokedex/26"
      <-> "/pokedex/25" = "/pokedex/26").
Proof.
  split; [reflexivity|].
  apply (build_pokemon_url_faithful "/pokedex/25" "/pokedex/26").
Defined.

Lemma table_row_step_pair d tr :
  table_row_step d tr
  = match row_pair tr with
    | Some p => set (fst p) (snd p) d
    | None => d
    end.
Proof.
  unfold table_row_step, row_pair.
  destruct (find "th" tr); [|reflexivity].
  now destruct (find "td" tr).
Qed.

Lemma fold_rows_pairs rows : forall d,
  fold_left table_row_step rows d
  = update d (flat_map (fun tr => match row_pair tr with
                                  | Some p => [p]
                                  | None => []
                                  end) rows).
Proof.
  induction rows as [|tr rows IH]; intros d; [reflexivity|].
  cbn [fold_left flat_map]. rewrite IH, table_row_step_pair.
  unfold update. rewrite fold_left_app.
  now destruct (row_pair tr).
Qed.

(** The dictionary of a table is the dictionary its pairs build. *)
Lemma get_table_dict_pairs table :
  get_table_dict table = update empty (row_pairs table).
Proof. apply fold_rows_pairs. Qed.

(** X2: the keys of the dictionary of a table are exactly the trimmed
    header texts of the rows that have both a header cell and a data cell;
    a row without either cell contributes no key. *)
Theorem get_table_dict_keys table k :
  In k (keys (get_table_dict table))
  <-> exists tr th td,
        In tr (select selector_tr table)
        /\ find "th" tr = Some th
        /\ find "td" tr = Some td
        /\ k = get_text "" th.
Proof.
  rewrite get_table_dict_pairs, In_keys_update. unfold row_pairs, keys.
  split.
  - intros [[]|H]. apply in_map_iff in H. destruct H as ([k' v] & <- & H).
    apply in_flat_map in H. destruct H as (tr & Htr & Hp).
    unfold row_pair in Hp.
    destruct (find "th" tr) as [th|] eqn:Eth; [|destruct Hp].
    destruct (find "td" tr) as [td|] eqn:Etd; [|destruct Hp].
    destruct Hp as [Hp|[]]. injection Hp as <- <-.
    exists tr, th, td. auto.
  - intros (tr & th & td & Htr & Eth & Etd & ->). right.
    apply in_map_iff. exists (get_text "" th, get_text " " td).
    split; [reflexivity|]. apply in_flat_map. exists tr.
    split; [exact Htr|]. unfold row_pair. rewrite Eth, Etd. now left.
Qed.

Lemma get_table_dict_keys_witness :
  keys (get_table_dict ragged) = ["Type"; "Height"]
  /\ exists tr th td,
       In tr (select selector_tr ragged)
       /\ find "th" tr = Some th
       /\ find "td" tr = Some td
       /\ "Height" = get_text "" th.
Proof.
  split; [reflexivity|].
  apply (proj1 (get_table_dict_keys ragged "Height")).
  right. left. reflexivity.
Defined.

Lemma get_fold_rows_other k rows : forall d,
  no_pair_for k rows = true ->
  get k (fold_left table_row_step rows d) = get k d.
Proof.
  induction rows as [|tr rows IH]; intros d H; [reflexivity|].
  cbn [fold_left no_pair_for forallb] in *.
  apply andb_prop in H. destruct H as [Htr Hrows].
  fold (no_pair_for k rows) in Hrows. rewrite IH by assumption.
  rewrite table_row_step_pair.
  destruct (row_pair tr) as [[k' v']|]; [|reflexivity].
  apply negb_true_iff, String.eqb_neq in Htr. cbn [fst snd].
  apply get_set_other. congruence.
Qed.

(** X3: within a table the last row that gives a key wins: when a row
    contributes the pair (k, v) and no later row contributes a pair for k,
    the dictionary of the table maps k to v, whatever earlier rows gave. *)
Theorem get_table_dict_last_row_wins table r1 tr r2 k v :
  select selector_tr table = (r1 ++ tr :: r2)%list ->
  row_pair tr = Some (k, v) ->
  no_pair_for k r2 = true ->
  get k (get_table_dict table) = Some v.
Proof.
  intros Hrows Hp Hlater. unfold get_table_dict.
  rewrite Hrows, fold_left_app. cbn [fold_left].
  rewrite get_fold_rows_other by assumption.
  rewrite table_row_step_pair, Hp. apply get_set_same.
Qed.

Lemma get_table_dict_last_row_wins_witness :
  let rows := select selector_tr ragged in
  let r1 := firstn 3 rows in
  let tr := nth 3 rows ragged in
  let r2 := skipn 4 rows in
  select selector_tr ragged = (r1 ++ tr :: r2)%list
  /\ row_pair tr = Some ("Type", "Grass / Poison")
  /\ no_pair_for "Type" r2 = true
  /\ get "Type" (get_table_dict ragged) = Some "Grass / Poison".
Proof.
  intros rows r1 tr r2.
  split; [reflexivity|]. split; [reflexivity|]. split; [reflexivity|].
  apply (get_table_dict_last_row_wins ragged r1 tr r2
           "Type" "Grass / Poison"); reflexivity.
Defined.

Lemma length_keys_set k v d :
  List.length (keys (set k v d)) <= S (List.length (keys d)).
Proof.
  rewrite keys_set. destruct (mem k (keys d)); [lia|].
  rewrite length_app. simpl. lia.
Qed.

Lemma length_fold_rows rows : forall d,
  List.length (keys (fold_left table_row_step rows d))
  <= List.length (keys d) + List.length rows.
Proof.
  induction rows as [|tr rows IH]; intros d; cbn [fold_left List.length];
    [lia|].
  specialize (IH (table_row_step d tr)).
  assert (List.length (keys (table_row_step d tr))
          <= S (List.length (keys d))).
  { rewrite table_row_step_pair. destruct (row_pair tr); [|lia].
    apply length_keys_set. }
  lia.
Qed.

(** X4: the dictionary of a table has no key twice and at most one entry
    per row of the table; when no row has both cells it is empty. *)
Theorem get_table_dict_size table :
  NoDup (keys (get_table_dict table))
  /\ List.length (keys (get_table_dict table))
     <= List.length (select selector_tr table)
  /\ (row_pairs table = [] -> get_table_dict table = empty).
Proof.
  split; [apply wf_get_table_dict|]. split.
  - apply (length_fold_rows (select selector_tr table) empty).
  - intros H. now rewrite get_table_dict_pairs, H.
Qed.

Lemma get_table_dict_size_witness :
  let bare :=
    {| parents := [];
       node := Tag "table" []
                 [Tag "tr" [] [Tag "th" [] [NavigableString "Header only"]];
                  Tag "tr" [] []] |} in
  row_pairs bare = []
  /\ get_table_dict bare = empty
  /\ NoDup (keys (get_table_dict ragged))
  /\ List.length (keys (get_table_dict ragged))
     <= List.length (select selector_tr ragged).
Proof.
  intros bare.
  destruct (get_table_dict_size bare) as (_ & _ & Hempty).
  destruct (get_table_dict_size ragged) as (Hnodup & Hlen & _).
  split; [reflexivity|]. split; [apply Hempty; reflexivity|].
  split; [exact Hnodup | exact Hlen].
Defined.

(** *** Texts are stored trimmed *)

Lemma skip_space_shorter s r :
  PyStr.skip_space s = Some r -> String.length r < String.length s.
Proof.
  unfold PyStr.skip_space. destruct s as [|a [|b [|c s3]]]; try discriminate.
  - destruct (PyStr.is_space a); [|discriminate].
    intros H. injection H as <-. simpl. lia.
  - destruct (PyStr.is_space a); [intros H; injection H as <-; simpl; lia|].
    destruct (PyStr.is_space2 a b); [|discriminate].
    intros H. injection H as <-. simpl. lia.
  - destruct (PyStr.is_space a); [intros H; injection H as <-; simpl; lia|].
    destruct (PyStr.is_space2 a b);
      [intros H; injection H as <-; simpl; lia|].
    destruct (PyStr.is_space3 a b c); [|discriminate].
    intros H. injection H as <-. simpl. lia.
Qed.

(** [lstrip] drops leading white-space characters one at a time. *)
Lemma lstrip_step s :
  PyStr.lstrip s
  = match PyStr.skip_space s with
    | Some r => PyStr.lstrip r
    | None => s
    end.
Proof.
  destruct s as [|a [|b [|c s3]]]; cbn [PyStr.lstrip PyStr.skip_space];
    try reflexivity.
  - now destruct (PyStr.is_space a).
  - destruct (PyStr.is_space a); [reflexivity|].
    now destruct (PyStr.is_space2 a b).
  - destruct (PyStr.is_space a); [reflexivity|].
    destruct (PyStr.is_space2 a b); [reflexivity|].
    now destruct (PyStr.is_space3 a b c).
Qed.

Lemma all_space_step s :
  PyStr.all_space s
  = match s with
    | EmptyString => true
    | String _ _ =>
        match PyStr.skip_space s with
        | Some r => PyStr.all_space r
        | None => false
        end
    end.
Proof.
  destruct s as [|a [|b [|c s3]]]; cbn [PyStr.all_space PyStr.skip_space];
    try reflexivity.
  - now destruct (PyStr.is_space a).
  - destruct (PyStr.is_space a); [reflexivity|].
    now destruct (PyStr.is_space2 a b).
  - destruct (PyStr.is_space a); [reflexivity|].
    destruct (PyStr.is_space2 a b); [reflexivity|].
    now destruct (PyStr.is_space3 a b c).
Qed.

Lemma rstrip_cons a s :
  PyStr.rstrip (String a s)
  = if PyStr.all_space (String a s) then EmptyString
    else String a (PyStr.rstrip s).
Proof. reflexivity. Qed.

(** **** The bytes of the white-space characters *)

Ltac each_byte a :=
  let b0 := fresh in let b1 := fresh in let b2 := fresh in
  let b3 := fresh in let b4 := fresh in let b5 := fresh in
  let b6 := fresh in let b7 := fresh in
  destruct a as [b0 b1 b2 b3 b4 b5 b6 b7];
  destruct b0, b1, b2, b3, b4, b5, b6, b7.

Lemma space_bytes a : implb (PyStr.is_space a) (width a =? 1)%nat = true.
Proof. each_byte a; reflexivity. Qed.

Lemma space2_bytes a b :
  implb (PyStr.is_space2 a b) ((width a =? 2)%nat && is_cont b) = true.
Proof. each_byte a; try reflexivity; each_byte b; reflexivity. Qed.

Lemma space3_bytes a b c :
  implb (PyStr.is_space3 a b c)
        ((width a =? 3)%nat && is_cont b && is_cont c) = true.
Proof.
  each_byte a; try reflexivity; each_byte b; try reflexivity;
    each_byte c; reflexivity.
Qed.

Lemma cont_bytes a : implb (is_cont a) (width a =? 0)%nat = true.
Proof. each_byte a; reflexivity. Qed.

Lemma is_space_width a : PyStr.is_space a = true -> width a = 1.
Proof.
  intros H. pose proof (space_bytes a) as B. rewrite H in B.
  now apply Nat.eqb_eq.
Qed.

Lemma is_space2_width a b :
  PyStr.is_space2 a b = true -> width a = 2 /\ is_cont b = true.
Proof.
  intros H. pose proof (space2_bytes a b) as B. rewrite H in B.
  cbn [implb] in B. apply andb_prop in B. destruct B as [W C].
  split; [now apply Nat.eqb_eq | exact C].
Qed.

Lemma is_space3_width a b c :
  PyStr.is_space3 a b c = true ->
  width a = 3 /\ is_cont b = true /\ is_cont c = true.
Proof.
  intros H. pose proof (space3_bytes a b c) as B. rewrite H in B.
  cbn [implb] in B. apply andb_prop in B. destruct B as [B C].
  apply andb_prop in B. destruct B as [W B].
  repeat split; [now apply Nat.eqb_eq | exact B | exact C].
Qed.

Lemma is_cont_width a : is_cont a = true -> width a = 0.
Proof.
  intros H. pose proof (cont_bytes a) as B. rewrite H in B.
  now apply Nat.eqb_eq.
Qed.

(** What [skip_space] removed, by the width of the first byte. *)
Lemma skip_space_width a t r :
  PyStr.skip_space (String a t) = Some r ->
  (width a = 1 /\ PyStr.is_space a = true /\ r = t)
  \/ (width a = 2 /\ PyStr.is_space a = false
      /\ exists b, t = String b r /\ PyStr.is_space2 a b = true)
  \/ (width a = 3 /\ PyStr.is_space a = false
      /\ exists b c, t = String b (String c r)
                     /\ PyStr.is_space2 a b = false
                     /\ PyStr.is_space3 a b c = true).
Proof.
  cbn [PyStr.skip_space]. destruct (PyStr.is_space a) eqn:S1.
  - intros H. injection H as <-. left.
    split; [now apply is_space_width | now split].
  - destruct t as [|b t]; [discriminate|].
    destruct (PyStr.is_space2 a b) eqn:S2.
    + intros H. injection H as <-. right. left.
      split; [now apply is_space2_width in S2|].
      split; [reflexivity|]. now exists b.
    + destruct t as [|c t]; [discriminate|].
      destruct (PyStr.is_space3 a b c) eqn:S3; [|discriminate].
      intros H. injection H as <-. right. right.
      split; [now apply is_space3_width in S3|].
      split; [reflexivity|]. now exists b, c.
Qed.

Lemma skip_space_app_some x r w :
  PyStr.skip_space x = Some r ->
  PyStr.skip_space (x ++ w) = Some (r ++ w)%string.
Proof.
  destruct x as [|a t]; [discriminate|]. intros H.
  apply skip_space_width in H.
  destruct H as [(_ & S1 & ->)|[(_ & S1 & b & -> & S2)
                               |(_ & S1 & b & c & -> & S2 & S3)]];
    cbn [append PyStr.skip_space]; rewrite S1; try rewrite S2;
    try rewrite S3; reflexivity.
Qed.

(** On whole characters [skip_space] reads the first character only. *)
Lemma skip_space_app p x :
  utf8 p = true -> PyStr.is_empty p = false ->
  PyStr.skip_space (p ++ x)
  = match PyStr.skip_space p with
    | Some r => Some (r ++ x)%string
    | None => None
    end.
Proof.
  intros U N. destruct (PyStr.skip_space p) as [r|] eqn:E.
  - now apply skip_space_app_some.
  - destruct p as [|a t]; [discriminate|]. cbn [append].
    destruct (PyStr.skip_space (String a (t ++ x))) as [r|] eqn:E';
      [exfalso|reflexivity].
    cbn [utf8] in U. apply skip_space_width in E'.
    destruct E' as [(_ & S1 & _)|[(W & S1 & b & Ht & S2)
                                 |(W & S1 & b & c & Ht & S2 & S3)]].
    + cbn [PyStr.skip_space] in E. now rewrite S1 in E.
    + rewrite W in U. destruct t as [|b' t]; [discriminate|].
      cbn [append] in Ht. injection Ht as -> _.
      cbn [PyStr.skip_space] in E. now rewrite S1, S2 in E.
    + rewrite W in U. destruct t as [|b' [|c' t]]; try discriminate.
      cbn [append] in Ht. injection Ht as -> -> _.
      cbn [PyStr.skip_space] in E. now rewrite S1, S2, S3 in E.
Qed.

Lemma utf8_skip_space s r :
  utf8 s = true -> PyStr.skip_space s = Some r -> utf8 r = true.
Proof.
  destruct s as [|a t]; [discriminate|]. intros U H.
  cbn [utf8] in U. apply skip_space_width in H.
  destruct H as [(W & _ & ->)|[(W & _ & b & -> & _)
                              |(W & _ & b & c & -> & _)]];
    rewrite W in U.
  - exact U.
  - now apply andb_prop in U.
  - now apply andb_prop in U.
Qed.

Lemma utf8_first a t : utf8 (String a t) = true -> is_cont a = false.
Proof.
  cbn [utf8]. destruct (is_cont a) eqn:C; [|reflexivity].
  apply is_cont_width in C. now rewrite C.
Qed.

Lemma skip_space_cont a t :
  is_cont a = true -> PyStr.skip_space (String a t) = None.
Proof.
  intros C. apply is_cont_width in C.
  destruct (PyStr.skip_space (String a t)) as [r|] eqn:E; [|reflexivity].
  apply skip_space_width in E.
  destruct E as [(W & _)|[(W & _)|(W & _)]]; congruence.
Qed.

Lemma all_space_cont a t :
  is_cont a = true -> PyStr.all_space (String a t) = false.
Proof.
  intros C. rewrite all_space_step. now rewrite skip_space_cont.
Qed.

(** **** Stripping keeps whole characters *)

Ltac by_length s :=
  let n := fresh "n" in let Hn := fresh "Hn" in let Hle := fresh "Hle" in
  let IH := fresh "IH" in
  remember (String.length s) as n eqn:Hn;
  assert (Hle : String.length s <= n) by lia; clear Hn;
  revert s Hle; induction n as [|n IH]; intros s Hle.

Lemma utf8_lstrip s : utf8 s = true -> utf8 (PyStr.lstrip s) = true.
Proof.
  by_length s; intros U; rewrite lstrip_step.
  - destruct s; [exact U | simpl in Hle; lia].
  - destruct (PyStr.skip_space s) as [r|] eqn:E; [|exact U].
    apply IH; [apply skip_space_shorter in E; lia|].
    now apply utf8_skip_space with s.
Qed.

Lemma skip_space_lstrip s : PyStr.skip_space (PyStr.lstrip s) = None.
Proof.
  by_length s; rewrite lstrip_step.
  - destruct s; [reflexivity | simpl in Hle; lia].
  - destruct (PyStr.skip_space s) as [r|] eqn:E; [|exact E].
    apply IH. apply skip_space_shorter in E. lia.
Qed.

Lemma utf8_rstrip s : utf8 s = true -> utf8 (PyStr.rstrip s) = true.
Proof.
  by_length s; intros U.
  - destruct s; [reflexivity | simpl in Hle; lia].
  - destruct s as [|a t]; [reflexivity|]. rewrite rstrip_cons.
    destruct (PyStr.all_space (String a t)) eqn:A; [reflexivity|].
    cbn [utf8] in U |- *. simpl in Hle.
    destruct (width a) as [|[|[|[|[|w]]]]] eqn:W; try discriminate.
    + apply IH; [lia | exact U].
    + destruct t as [|b t]; [discriminate|].
      apply andb_prop in U. destruct U as [Cb U].
      rewrite rstrip_cons, (all_space_cont b t Cb), Cb.
      apply IH; [simpl in Hle; lia | exact U].
    + destruct t as [|b [|c t]]; try discriminate.
      apply andb_prop in U. destruct U as [U Ut].
      apply andb_prop in U. destruct U as [Cb Cc].
      rewrite rstrip_cons, (all_space_cont b _ Cb).
      rewrite rstrip_cons, (all_space_cont c _ Cc). rewrite Cb, Cc.
      apply IH; [simpl in Hle; lia | exact Ut].
    + destruct t as [|b [|c [|d t]]]; try discriminate.
      apply andb_prop in U. destruct U as [U Ut].
      apply andb_prop in U. destruct U as [U Cd].
      apply andb_prop in U. destruct U as [Cb Cc].
      rewrite rstrip_cons, (all_space_cont b _ Cb).
      rewrite rstrip_cons, (all_space_cont c _ Cc).
      rewrite rstrip_cons, (all_space_cont d _ Cd). rewrite Cb, Cc, Cd.
      apply IH; [simpl in Hle; lia | exact Ut].
Qed.

(** **** Stripping twice *)

Lemma rstrip_split s :
  exists w, s = (PyStr.rstrip s ++ w)%string /\ PyStr.all_space w = true.
Proof.
  induction s as [|a t (w & E & A)]; [now exists EmptyString|].
  rewrite rstrip_cons. destruct (PyStr.all_space (String a t)) eqn:B.
  - now exists (String a t).
  - exists w. cbn [append]. now rewrite <- E.
Qed.

Lemma all_space_app x w :
  PyStr.all_space x = true -> PyStr.all_space w = true ->
  PyStr.all_space (x ++ w) = true.
Proof.
  intros Ax Aw. revert Ax. by_length x; intros Ax.
  - destruct x; [exact Aw | simpl in Hle; lia].
  - destruct x as [|a t]; [exact Aw|].
    rewrite all_space_step in Ax.
    destruct (PyStr.skip_space (String a t)) as [r|] eqn:E; [|discriminate].
    pose proof (skip_space_shorter _ _ E) as L.
    apply (skip_space_app_some _ _ w) in E.
    rewrite all_space_step. cbn [append] in E |- *. rewrite E.
    apply IH; [lia | exact Ax].
Qed.

Lemma rstrip_idem s : PyStr.rstrip (PyStr.rstrip s) = PyStr.rstrip s.
Proof.
  induction s as [|a t IH]; [reflexivity|]. rewrite rstrip_cons.
  destruct (PyStr.all_space (String a t)) eqn:A; [reflexivity|].
  rewrite rstrip_cons.
  destruct (PyStr.all_space (String a (PyStr.rstrip t))) eqn:B.
  - exfalso. destruct (rstrip_split t) as (w & E & Aw).
    pose proof (all_space_app _ _ B Aw) as C. cbn [append] in C.
    rewrite <- E in C. congruence.
  - now rewrite IH.
Qed.

Lemma skip_space_rstrip u :
  PyStr.skip_space u = None -> PyStr.skip_space (PyStr.rstrip u) = None.
Proof.
  intros H. destruct (PyStr.skip_space (PyStr.rstrip u)) as [r|] eqn:E;
    [|reflexivity].
  destruct (rstrip_split u) as (w & Eu & _).
  apply (skip_space_app_some _ _ w) in E. rewrite <- Eu in E. congruence.
Qed.

Lemma clean_strip s : utf8 s = true -> clean (PyStr.strip s).
Proof.
  intros U. unfold PyStr.strip. split; [|split].
  - now apply utf8_rstrip, utf8_lstrip.
  - apply skip_space_rstrip, skip_space_lstrip.
  - apply rstrip_idem.
Qed.

Lemma strip_clean p : clean p -> PyStr.strip p = p.
Proof.
  intros (_ & L & R). unfold PyStr.strip. rewrite lstrip_step, L. exact R.
Qed.

(** **** Joining clean pieces *)

Lemma all_space_before p :
  utf8 p = true -> PyStr.is_empty p = false -> PyStr.rstrip p = p ->
  forall y, PyStr.all_space (y ++ p) = false.
Proof.
  intros U N R y. by_length y.
  - destruct y; [|simpl in Hle; lia]. cbn [append].
    destruct p as [|a t]; [discriminate|]. rewrite rstrip_cons in R.
    now destruct (PyStr.all_space (String a t)).
  - destruct y as [|a y].
    { cbn [append]. destruct p as [|a t]; [discriminate|].
      rewrite rstrip_cons in R.
      now destruct (PyStr.all_space (String a t)). }
    cbn [append]. rewrite all_space_step. simpl in Hle.
    destruct (PyStr.skip_space (String a (y ++ p))) as [r|] eqn:E;
      [|reflexivity].
    apply skip_space_width in E.
    destruct E as [(_ & _ & ->)|[(_ & _ & b & Ht & S2)
                                |(_ & _ & b & c & Ht & _ & S3)]].
    + apply IH. lia.
    + apply is_space2_width in S2. destruct S2 as [_ Cb].
      destruct y as [|b' y]; cbn [append] in Ht.
      * subst p. apply utf8_first in U. congruence.
      * injection Ht as _ <-. apply IH. simpl in Hle. lia.
    + apply is_space3_width in S3. destruct S3 as (_ & Cb & Cc).
      destruct y as [|b' [|c' y]]; cbn [append] in Ht.
      * subst p. apply utf8_first in U. congruence.
      * injection Ht as _ Hp. subst p. apply utf8_first in U. congruence.
      * injection Ht as _ _ <-. apply IH. simpl in Hle. lia.
Qed.

Lemma rstrip_before p :
  utf8 p = true -> PyStr.is_empty p = false -> PyStr.rstrip p = p ->
  forall y, PyStr.rstrip (y ++ p) = (y ++ p)%string.
Proof.
  intros U N R. induction y as [|a y IH]; [exact R|].
  cbn [append]. rewrite rstrip_cons.
  change (String a (y ++ p)) with (String a y ++ p)%string.
  rewrite (all_space_before p U N R). cbn [append]. now rewrite IH.
Qed.

Lemma append_assoc_s (a b c : string) :
  ((a ++ b) ++ c = a ++ (b ++ c))%string.
Proof. induction a as [|x a IH]; [reflexivity|]. cbn. now rewrite IH. Qed.

Lemma join_last sep ps :
  ps <> [] -> exists y p, In p ps /\ PyStr.join sep ps = (y ++ p)%string.
Proof.
  induction ps as [|p ps IH]; [congruence|]. intros _.
  destruct ps as [|q ps].
  - exists EmptyString, p. split; [now left | reflexivity].
  - destruct (IH ltac:(discriminate)) as (y & l & Hin & E).
    exists (p ++ sep ++ y)%string, l. split; [now right|].
    change (PyStr.join sep (p :: q :: ps))
      with (p ++ sep ++ PyStr.join sep (q :: ps))%string.
    rewrite E. now rewrite !append_assoc_s.
Qed.

Lemma strip_join sep ps :
  Forall (fun p => PyStr.is_empty p = false /\ clean p) ps ->
  PyStr.strip (PyStr.join sep ps) = PyStr.join sep ps.
Proof.
  intros H. unfold PyStr.strip.
  assert (L : PyStr.skip_space (PyStr.join sep ps) = None).
  { destruct ps as [|p ps]; [reflexivity|].
    inversion H as [|? ? (N & U & Lp & _) _]; subst.
    destruct ps as [|q ps]; [exact Lp|].
    change (PyStr.join sep (p :: q :: ps))
      with (p ++ sep ++ PyStr.join sep (q :: ps))%string.
    now rewrite skip_space_app, Lp. }
  rewrite lstrip_step, L.
  destruct ps as [|p0 ps0] eqn:Eps; [reflexivity|]. rewrite <- Eps in *.
  destruct (join_last sep ps) as (y & p & Hin & E);
    [rewrite Eps; discriminate|].
  rewrite Forall_forall in H. destruct (H p Hin) as (N & U & _ & R).
  rewrite E. now apply rstrip_before.
Qed.

(** **** The strings of a table *)

Lemma utf8_all_strings : forall n wanted cls,
  utf8_tree n = true ->
  Forall (fun s => utf8 s = true) (all_strings wanted cls n).
Proof.
  fix IH 1. intros [s|name attrs cs] wanted cls H; cbn [all_strings].
  - destruct (class_eqb cls wanted); repeat constructor. exact H.
  - cbn [utf8_tree] in H. generalize (string_class name cls) as c.
    induction cs as [|n cs IHcs]; intros c; cbn [flat_map];
      [constructor|].
    cbn [forallb] in H. apply andb_prop in H. destruct H as [Hn Hcs].
    apply Forall_app. split; [now apply IH | now apply IHcs].
Qed.

Lemma utf8_elements : forall n anc,
  utf8_tree n = true ->
  Forall (fun e => utf8_tree (node e) = true) (elements anc n).
Proof.
  fix IH 1. intros [s|name attrs cs] anc H; cbn [elements];
    [constructor|].
  constructor; [exact H|]. cbn [utf8_tree] in H.
  generalize ((name, attrs) :: anc) as c.
  induction cs as [|n cs IHcs]; intros c; cbn [flat_map]; [constructor|].
  cbn [forallb] in H. apply andb_prop in H. destruct H as [Hn Hcs].
  apply Forall_app. split; [now apply IH | now apply IHcs].
Qed.

Lemma utf8_descendants e :
  utf8_tree (node e) = true ->
  Forall (fun d => utf8_tree (node d) = true) (descendant_elements e).
Proof.
  unfold descendant_elements. destruct (node e) as [s|name attrs cs];
    [constructor|].
  cbn [utf8_tree]. generalize ((name, attrs) :: parents e) as c.
  induction cs as [|n cs IHcs]; intros c H; cbn [flat_map]; [constructor|].
  cbn [forallb] in H. apply andb_prop in H. destruct H as [Hn Hcs].
  apply Forall_app. split; [now apply utf8_elements | now apply IHcs].
Qed.

Lemma utf8_find name e d :
  utf8_tree (node e) = true -> find name e = Some d ->
  utf8_tree (node d) = true.
Proof.
  intros U F. unfold find in F. apply find_some in F. destruct F as [Hin _].
  pose proof (utf8_descendants e U) as D. rewrite Forall_forall in D.
  now apply D.
Qed.

Lemma utf8_select sel e d :
  utf8_tree (node e) = true -> In d (select sel e) ->
  utf8_tree (node d) = true.
Proof.
  intros U Hin. unfold select in Hin. apply filter_In in Hin.
  destruct Hin as [Hin _].
  pose proof (utf8_descendants e U) as D. rewrite Forall_forall in D.
  now apply D.
Qed.

(** [get_text] with [strip=True] returns a text that stripping leaves as
    it is. *)
Lemma strip_get_text sep e :
  utf8_tree (node e) = true ->
  PyStr.strip (get_text sep e) = get_text sep e.
Proof.
  intros U. unfold get_text. apply strip_join. apply Forall_forall.
  intros p Hp. apply filter_In in Hp. destruct Hp as [Hin Hne].
  apply negb_true_iff in Hne. split; [exact Hne|].
  apply in_map_iff in Hin. destruct Hin as (s & <- & Hs).
  apply clean_strip.
  pose proof (utf8_all_strings (node e) (interesting (node e))
                (class_at (parents e)) U) as A.
  rewrite Forall_forall in A. now apply A.
Qed.

Lemma get_update_source k v o : forall d,
  get k (update d o) = Some v -> In (k, v) o \/ get k d = Some v.
Proof.
  unfold update. induction o as [|[k' v'] o IH]; intros d H; cbn in *;
    [now right|].
  destruct (IH _ H) as [Hin|Hget]; [left; now right|].
  destruct (String.eqb_spec k k') as [->|N].
  - rewrite get_set_same in Hget. injection Hget as ->. left. now left.
  - rewrite get_set_other in Hget by assumption. now right.
Qed.

(** X5: every entry of the dictionary of a table is stored stripped:
    on a table whose strings are whole encoded characters, stripping the
    key or the value of an entry again returns it unchanged, for every
    white-space character of [str.isspace], not the ASCII ones only. *)
Theorem get_table_dict_trimmed table k v :
  utf8_tree (node table) = true ->
  get k (get_table_dict table) = Some v ->
  PyStr.strip k = k /\ PyStr.strip v = v.
Proof.
  intros U. rewrite get_table_dict_pairs. intros H.
  apply get_update_source in H. destruct H as [H|H]; [|discriminate].
  unfold row_pairs in H. apply in_flat_map in H.
  destruct H as (tr & Htr & Hp). unfold row_pair in Hp.
  apply (utf8_select _ _ _ U) in Htr.
  destruct (find "th" tr) as [th|] eqn:Fh; [|destruct Hp].
  destruct (find "td" tr) as [td|] eqn:Fd; [|destruct Hp].
  destruct Hp as [Hp|[]]. injection Hp as <- <-.
  split; apply strip_get_text.
  - now apply (utf8_find "th" tr).
  - now apply (utf8_find "td" tr).
Qed.

Lemma get_table_dict_trimmed_witness :
  utf8_tree (node padded) = true
  /\ get "Height" (get_table_dict padded) = Some "0.7 m"
  /\ PyStr.strip "Height" = "Height" /\ PyStr.strip "0.7 m" = "0.7 m".
Proof.
  split; [reflexivity|]. split; [reflexivity|].
  apply (get_table_dict_trimmed padded "Height" "0.7 m"); reflexivity.
Defined.

End TableDict.


(* ================================================================== *)
(** ** Further properties: [get_urls] *)
(* ================================================================== *)

Module ListingMore.

Import Bs4 PyDict Pandas Scraping Spec Samples Observe.
Import PyDictFacts ScrapingFacts.

Ltac frame :=
  cbn [fst snd];
  repeat (split; [first [reflexivity | assumption]|]);
  first [ reflexivity
        | let H := fresh in
          intros H; first [reflexivity | exfalso; now apply H] ].

(** X6: [get_urls] writes the page and the link list and nothing else: the
    address, the shared dictionary and the table are as before, and when
    the call raises, for whatever reason, the link list is as before too
    (no partial list is stored). *)
Theorem get_urls_touches_only_links web st :
  let r := get_urls web st in
  url_path (snd r) = url_path st
  /\ pokemon_dict_data (snd r) = pokemon_dict_data st
  /\ dataframe (snd r) = dataframe st
  /\ (fst r <> Ok tt ->
      pokemon_url_suffixes (snd r) = pokemon_url_suffixes st).
Proof.
  cbv zeta. rewrite get_urls_eq.
  destruct (url_path st) as [url|] eqn:U; [|frame].
  destruct (web url) as [page|]; [|frame].
  destruct (hrefs (soup_select selector_cards page)) as [l|e]; frame.
Qed.

Lemma get_urls_touches_only_links_witness :
  let st := set_suffixes ["/pokedex/151"]
              (set_dict [("Pokemon Name", "Mew")] (new (Some catalogue))) in
  let r := get_urls site_without_href st in
  fst r <> Ok tt
  /\ url_path (snd r) = url_path st
  /\ pokemon_dict_data (snd r) = pokemon_dict_data st
  /\ dataframe (snd r) = dataframe st
  /\ pokemon_url_suffixes (snd r) = ["/pokedex/151"].
Proof.
  intros st r.
  assert (F : fst r <> Ok tt) by discriminate.
  destruct (get_urls_touches_only_links site_without_href st)
    as (A & B & C & D).
  split; [exact F|]. split; [exact A|]. split; [exact B|].
  split; [exact C|]. exact (D F).
Defined.

Lemma hrefs_missing tags :
  forallb (fun t => match href t with Some _ => true | None => false end)
          tags = false ->
  hrefs tags = Raise (KeyError "href").
Proof.
  induction tags as [|t tags IH]; simpl; intros H; [discriminate|].
  unfold href in *.
  destruct (attr_get "href" (tag_attrs t)) as [h|]; [|reflexivity].
  simpl in H. now rewrite IH.
Qed.

(** X7: when some matched anchor of the listing has no [href], [get_urls]
    raises [KeyError] for ["href"]; the page was stored, the link list was
    not touched. *)
Theorem get_urls_anchor_without_href web st url page :
  url_path st = Some url ->
  web url = Some page ->
  well_formed_listing page = false ->
  get_urls web st = (Raise (KeyError "href"), set_soup page st).
Proof.
  intros Hu Hw Hwf. rewrite get_urls_eq, Hu, Hw.
  now rewrite (hrefs_missing _ Hwf).
Qed.

Lemma get_urls_anchor_without_href_witness :
  let st := set_suffixes ["/pokedex/151"] (new (Some catalogue)) in
  url_path st = Some catalogue
  /\ site_without_href catalogue = Some listing_without_href
  /\ well_formed_listing listing_without_href = false
  /\ get_urls site_without_href st
     = (Raise (KeyError "href"), set_soup listing_without_href st)
  /\ pokemon_url_suffixes (snd (get_urls site_without_href st))
     = ["/pokedex/151"].
Proof.
  intros st.
  pose proof (get_urls_anchor_without_href site_without_href st catalogue
                listing_without_href eq_refl eq_refl eq_refl) as E.
  split; [reflexivity|]. split; [reflexivity|]. split; [reflexivity|].
  split; [exact E|]. now rewrite E.
Defined.

(** X8: [get_urls] does not depend on what an earlier call stored: calling
    it again on the state it left gives the same result and the same
    state. *)
Theorem get_urls_again web st :
  get_urls web (snd (get_urls web st)) = get_urls web st.
Proof.
  rewrite (get_urls_eq web st).
  destruct (url_path st) as [url|] eqn:U.
  - destruct (web url) as [page|] eqn:W.
    + destruct (hrefs (soup_select selector_cards page)) as [l|e] eqn:H;
        cbn [snd]; rewrite get_urls_eq;
        cbn [url_path set_suffixes set_soup]; rewrite U, W, H;
        destruct st; reflexivity.
    + cbn [snd]. now rewrite get_urls_eq, U, W.
  - cbn [snd]. now rewrite get_urls_eq, U.
Qed.

End ListingMore.

(* ================================================================== *)
(** ** Further properties: [get_pokemon_data] *)
(* ================================================================== *)

Module DetailMore.

Import Bs4 PyDict Pandas Scraping Spec Samples Observe.
Import PyDictFacts ScrapingFacts.

(** X9: [get_pokemon_data] never touches the address, the link list or the
    table, and when it raises (page not served, heading absent) the shared
    dictionary is exactly as before: a failed extraction writes no entry. *)
Theorem get_pokemon_data_touches_only_dict web url st :
  let r := get_pokemon_data web url st in
  url_path (snd r) = url_path st
  /\ pokemon_url_suffixes (snd r) = pokemon_url_suffixes st
  /\ dataframe (snd r) = dataframe st
  /\ (fst r <> Ok tt -> pokemon_dict_data (snd r) = pokemon_dict_data st).
Proof.
  cbv zeta. rewrite get_pokemon_data_eq.
  destruct (web url) as [page|]; [|ListingMore.frame].
  destruct (soup_select_one selector_name page) as [h|]; ListingMore.frame.
Qed.

Lemma get_pokemon_data_touches_only_dict_witness :
  let url := "https://pokemondb.net/pokedex/0" in
  let st := set_dict [("Pokemon Name", "Bulbasaur");
                      ("Type", "Grass / Poison")] (new None) in
  let r := get_pokemon_data broken_second url st in
  fst r = Raise AttributeError
  /\ url_path (snd r) = url_path st
  /\ pokemon_url_suffixes (snd r) = pokemon_url_suffixes st
  /\ dataframe (snd r) = dataframe st
  /\ pokemon_dict_data (snd r) = pokemon_dict_data st.
Proof.
  intros url st r.
  assert (F : fst r <> Ok tt) by discriminate.
  destruct (get_pokemon_data_touches_only_dict broken_second url st)
    as (A & B & C & D).
  split; [reflexivity|]. split; [exact A|]. split; [exact B|].
  split; [exact C|]. exact (D F).
Defined.

Lemma keys_set_prefix k v d : exists l, keys (set k v d) = (keys d ++ l)%list.
Proof.
  rewrite keys_set. destruct (mem k (keys d)).
  - exists []. now rewrite app_nil_r.
  - now exists [k].
Qed.

Lemma keys_update_prefix o : forall d,
  exists l, keys (update d o) = (keys d ++ l)%list.
Proof.
  unfold update. induction o as [|[k v] o IH]; intros d;
    cbn [fold_left fst snd].
  - exists []. now rewrite app_nil_r.
  - destruct (IH (set k v d)) as (l & E).
    destruct (keys_set_prefix k v d) as (l0 & E0).
    exists (l0 ++ l)%list. now rewrite E, E0, app_assoc.
Qed.

Lemma keys_merged_prefix page d :
  exists l, keys (merged page d) = (keys d ++ l)%list.
Proof.
  unfold merged. generalize (attribute_tables page) as ts. intros ts.
  revert d. induction ts as [|t ts IH]; intros d; cbn [fold_left].
  - exists []. now rewrite app_nil_r.
  - destruct (IH (update d (get_table_dict t))) as (l & E).
    destruct (keys_update_prefix (get_table_dict t) d) as (l0 & E0).
    exists (l0 ++ l)%list. now rewrite E, E0, app_assoc.
Qed.

(** X10: [get_pokemon_data] keeps the keys of the shared dictionary in
    place: the keys it held before are still there in the same order, and
    the keys the page brings in come after them. *)
Theorem get_pokemon_data_keeps_key_order web url st :
  exists added,
    keys (pokemon_dict_data (snd (get_pokemon_data web url st)))
    = (keys (pokemon_dict_data st) ++ added)%list.
Proof.
  rewrite get_pokemon_data_eq.
  destruct (web url) as [page|];
    [|exists []; now rewrite app_nil_r].
  destruct (soup_select_one selector_name page) as [h|];
    [|exists []; cbn; now rewrite app_nil_r].
  cbn [snd pokemon_dict_data set_dict].
  destruct (keys_merged_prefix page
              (set name_key (get_text "" h) (pokemon_dict_data st)))
    as (l & E).
  destruct (keys_set_prefix name_key (get_text "" h) (pokemon_dict_data st))
    as (l0 & E0).
  exists (l0 ++ l)%list. now rewrite E, E0, app_assoc.
Qed.

(** Dictionaries with the same keys in the same order and the same values
    are the same. *)
Lemma dict_ext (d1 : dict) : forall d2,
  wf d1 ->
  keys d1 = keys d2 ->
  (forall k, get k d1 = get k d2) ->
  d1 = d2.
Proof.
  induction d1 as [|[k v] d1 IH]; intros [|[k2 v2] d2] W K G;
    try discriminate; [reflexivity|].
  cbn in K. injection K as K1 K. subst k2.
  unfold wf in W. cbn in W. inversion W as [|? ? Hn Hw]; subst.
  assert (v = v2).
  { specialize (G k). cbn in G. rewrite String.eqb_refl in G.
    congruence. }
  subst v2. f_equal. apply IH; [exact Hw | exact K |].
  intros k'. specialize (G k'). cbn in G.
  destruct (String.eqb_spec k' k) as [Ek|N]; [|exact G].
  rewrite Ek.
  assert (G1 : get k d1 = None) by now apply get_None_keys.
  assert (G2 : get k d2 = None).
  { apply get_None_keys. unfold keys in *. now rewrite <- K. }
  now rewrite G1, G2.
Qed.

Lemma merged_flat page d :
  merged page d
  = update d (flat_map get_table_dict (attribute_tables page)).
Proof.
  unfold merged. generalize (attribute_tables page) as ts. intros ts.
  revert d. induction ts as [|t ts IH]; intros d; [reflexivity|].
  cbn [fold_left flat_map]. rewrite IH. unfold update.
  now rewrite fold_left_app.
Qed.

(** An update reads through to the old value only where the new entries
    have none. *)
Lemma get_update_overlay k o : forall d,
  get k (update d o)
  = match get k (update empty o) with
    | Some v => Some v
    | None => get k d
    end.
Proof.
  unfold update, empty. induction o as [|[k' v'] o IH]; intros d;
    [reflexivity|].
  cbn [fold_left fst snd]. rewrite (IH (set k' v' d)), (IH (set k' v' [])).
  destruct (get k (fold_left (fun acc kv => set (fst kv) (snd kv) acc) o []));
    [reflexivity|].
  destruct (String.eqb_spec k k') as [->|N].
  - now rewrite !get_set_same.
  - now rewrite !get_set_other by assumption.
Qed.

Lemma keys_update_present o : forall d,
  (forall k, In k (keys o) -> In k (keys d)) ->
  keys (update d o) = keys d.
Proof.
  unfold update. induction o as [|[k v] o IH]; intros d H; [reflexivity|].
  cbn [fold_left fst snd].
  assert (K : keys (set k v d) = keys d).
  { rewrite keys_set.
    assert (M : mem k (keys d) = true) by (apply mem_In, H; now left).
    now rewrite M. }
  rewrite IH; [exact K|]. intros k' Hk'. rewrite K. apply H. now right.
Qed.

(** X11: extracting the same page a second time changes nothing: called on
    the state its first call left, [get_pokemon_data] ends the same way
    and leaves that state as it is. *)
Theorem get_pokemon_data_again web url st :
  wf (pokemon_dict_data st) ->
  get_pokemon_data web url (snd (get_pokemon_data web url st))
  = get_pokemon_data web url st.
Proof.
  intros W. rewrite (get_pokemon_data_eq web url st).
  destruct (web url) as [page|] eqn:Hw;
    [|cbn [snd]; now rewrite get_pokemon_data_eq, Hw].
  destruct (soup_select_one selector_name page) as [h|] eqn:Hh;
    cbn [snd]; rewrite get_pokemon_data_eq, Hw, Hh;
    [|destruct st; reflexivity].
  cbn [pokemon_dict_data set_dict set_soup].
  set (v := get_text "" h). set (d0 := pokemon_dict_data st).
  set (d1 := merged page (set name_key v d0)).
  assert (E : merged page (set name_key v d1) = d1).
  { symmetry. apply dict_ext.
    - unfold d1. rewrite merged_flat. now apply wf_update, wf_set.
    - assert (Hname : In name_key (keys d1)).
      { unfold d1. rewrite merged_flat. apply In_keys_update. left.
        apply In_keys_set. now left. }
      rewrite merged_flat. rewrite keys_update_present.
      + rewrite keys_set.
        assert (M : mem name_key (keys d1) = true) by now apply mem_In.
        now rewrite M.
      + intros k Hk. apply In_keys_set. right. unfold d1.
        rewrite merged_flat. apply In_keys_update. now right.
    - intros k. unfold d1. rewrite !merged_flat.
      rewrite (get_update_overlay k _ (set name_key v d0)).
      rewrite (get_update_overlay k _ (set name_key v (update _ _))).
      destruct (get k (update empty
                         (flat_map get_table_dict (attribute_tables page))))
        as [x|] eqn:Ex; [reflexivity|].
      destruct (String.eqb_spec k name_key) as [->|N].
      + now rewrite !get_set_same.
      + rewrite !get_set_other by assumption.
        rewrite get_update_overlay, Ex.
        now rewrite get_set_other by assumption. }
  rewrite E. destruct st; reflexivity.
Qed.

Lemma get_pokemon_data_again_witness :
  let url := "https://pokemondb.net/pokedex/3" in
  let web := site [(url, venusaur)] in
  let st := set_dict [("Type", "Fire"); ("Pokemon Name", "Charmander")]
                     (new None) in
  wf (pokemon_dict_data st)
  /\ get_pokemon_data web url (snd (get_pokemon_data web url st))
     = get_pokemon_data web url st.
Proof.
  intros url web st.
  assert (W : wf (pokemon_dict_data st)).
  { unfold wf. cbn. constructor.
    - intros [H|[]]. discriminate H.
    - constructor; [intros [] | constructor]. }
  split; [exact W|].
  apply (get_pokemon_data_again web url st W).
Defined.

Lemma find_first_of_filter {A} (p : A -> bool) l :
  List.find p l = hd_error (filter p l).
Proof.
  induction l as [|x l IH]; [reflexivity|]. cbn [List.find filter].
  now destruct (p x).
Qed.

(** X24: the name is read from the first heading only: when the page has
    several nodes matching the heading query, the trimmed text of the first
    in document order is stored under [Pokemon Name] (no table relabelling
    it), and the others are ignored; when it has none the call raises
    [AttributeError] after storing the page. *)
Theorem get_pokemon_data_first_heading web url page st :
  web url = Some page ->
  mem name_key (contributed_keys page) = false ->
  match soup_select selector_name page with
  | h :: _ =>
      fst (get_pokemon_data web url st) = Ok tt
      /\ get name_key
           (pokemon_dict_data (snd (get_pokemon_data web url st)))
         = Some (get_text "" h)
  | [] =>
      get_pokemon_data web url st = (Raise AttributeError, set_soup page st)
  end.
Proof.
  intros Hw Hn. rewrite get_pokemon_data_eq, Hw.
  unfold soup_select_one, soup_select. rewrite find_first_of_filter.
  destruct (filter (matches selector_name) (soup_elements page))
    as [|h rest]; cbn [hd_error]; [reflexivity|].
  split; [reflexivity|]. cbn [snd pokemon_dict_data set_dict].
  apply mem_not_In in Hn. unfold merged.
  rewrite Detail.get_fold_absent; [apply get_set_same|].
  intros t Ht. apply get_None_keys. intros Hk. apply Hn.
  unfold contributed_keys. apply in_flat_map. eauto.
Qed.

Lemma get_pokemon_data_first_heading_witness :
  let url := "https://pokemondb.net/pokedex/133" in
  let page :=
    {| top := [Tag "main" [("id", "main")]
                 [Tag "h1" [] [NavigableString " Eevee"];
                  Tag "h1" [] [NavigableString "Vaporeon"]]] |} in
  let web := site [(url, page)] in
  let st := new None in
  web url = Some page
  /\ mem name_key (contributed_keys page) = false
  /\ List.length (soup_select selector_name page) = 2
  /\ fst (get_pokemon_data web url st) = Ok tt
  /\ get name_key (pokemon_dict_data (snd (get_pokemon_data web url st)))
     = Some "Eevee".
Proof.
  intros url page web st.
  split; [reflexivity|]. split; [reflexivity|]. split; [reflexivity|].
  exact (get_pokemon_data_first_heading web url page st eq_refl eq_refl).
Defined.

End DetailMore.


(* ================================================================== *)
(** ** Further properties: [build_database] *)
(* ================================================================== *)

Module AccumulatorMore.

Import Bs4 PyDict Pandas Scraping Spec Samples Observe.
Import PyDictFacts PandasFacts ScrapingFacts.

Lemma row_get_absent cols : forall row c,
  ~ In c cols -> row_get cols row c = None.
Proof.
  induction cols as [|c' cols IH]; intros [|v row] c H; simpl;
    try reflexivity.
  destruct (String.eqb_spec c c') as [->|N].
  - exfalso. apply H. now left.
  - apply IH. intros Hin. apply H. now right.
Qed.

(** Reading a re-labelled row reads the old row. *)
Lemma row_get_reindexed cols row cols' c :
  (forall k, In k cols -> In k cols') ->
  row_get cols' (map (row_get cols row) cols') c = row_get cols row c.
Proof.
  intros H. rewrite row_get_map. destruct (mem c cols') eqn:E;
    [reflexivity|].
  apply mem_not_In in E. symmetry. apply row_get_absent. auto.
Qed.

(** X12: appending to a table that already exists and is regular (no
    label twice, a cell under each label in every row) keeps the labels it
    had in place and puts new ones after them, gives every row a cell per
    label, and extends each column by exactly one cell: the value of the
    current dictionary for that label, missing when it has none.  Cells of
    earlier rows are not changed, and under a new label they are
    missing. *)
Theorem build_database_extends_columns st df :
  dataframe st = Some df ->
  regular df = true ->
  exists df',
    build_database st = (Ok tt, set_dataframe df' st)
    /\ regular df' = true
    /\ (exists added, columns df' = (columns df ++ added)%list)
    /\ forall c,
         column c df' = (column c df ++ [get c (pokemon_dict_data st)])%list.
Proof.
  intros H R. rewrite build_database_unfold, H, (concat_two _ _ R).
  cbv zeta. eexists. split; [reflexivity|]. cbn [columns data].
  set (d := pokemon_dict_data st).
  set (cols' := union_columns (columns df) (keys d)).
  split; [|split].
  - apply regular_spec. cbn [columns data]. fold cols'. split.
    + apply NoDup_union_columns. now apply (regular_spec df).
    + apply Forall_app. split.
      * unfold reindex. apply Forall_forall. intros r Hr.
        apply in_map_iff in Hr. destruct Hr as (r0 & <- & _).
        apply length_map.
      * constructor; [apply length_map | constructor].
  - apply union_columns_prefix.
  - intros c. unfold column. cbn [columns data]. fold cols'.
    rewrite map_app. f_equal.
    + unfold reindex. rewrite map_map. apply map_ext. intros r.
      apply row_get_reindexed. intros k Hk.
      apply In_union_columns. now left.
    + cbn [map]. f_equal. apply row_get_record. intros k Hk.
      apply In_union_columns. now right.
Qed.

Lemma build_database_extends_columns_witness :
  let st := set_dict [("Type", "Water"); ("Pokemon Name", "Squirtle");
                      ("Species", "Tiny Turtle")]
              (set_dataframe stored_frame (new None)) in
  dataframe st = Some stored_frame
  /\ regular stored_frame = true
  /\ snd (build_database st)
     = set_dataframe
         {| columns := ["Pokemon Name"; "Type"; "Species"];
            data := [[Some "Bulbasaur"; Some "Grass / Poison"; None];
                     [Some "Ivysaur"; None; None];
                     [Some "Squirtle"; Some "Water"; Some "Tiny Turtle"]] |}
         st
  /\ exists df',
       build_database st = (Ok tt, set_dataframe df' st)
       /\ regular df' = true
       /\ (exists added, columns df' = (columns stored_frame ++ added)%list)
       /\ forall c,
            column c df'
            = (column c stored_frame ++ [get c (pokemon_dict_data st)])%list.
Proof.
  intros st. split; [reflexivity|]. split; [reflexivity|].
  split; [reflexivity|].
  apply (build_database_extends_columns st stored_frame); reflexivity.
Defined.

Lemma same_labels_unique df d :
  same_labels [df; of_records [d]] = true -> unique (columns df) = true.
Proof.
  cbn [same_labels forallb]. rewrite andb_true_r. intros H.
  apply labels_eqb_eq in H. rewrite <- H.
  apply unique_NoDup, NoDup_columns_of_records.
Qed.

(** X13: [build_database] raises exactly when the table it holds has a
    label twice: then it raises [InvalidIndexError] and leaves the scraper
    as it was.  On every other table, the unset one and all a run builds
    included, it adds exactly one row, also for an empty dictionary,
    keeps the labels distinct and leaves the dictionary, the page, the
    address and the link list as they are. *)
Theorem build_database_outcome st :
  (distinct_labels st = true ->
   exists st',
     build_database st = (Ok tt, st')
     /\ table_rows st' = S (table_rows st)
     /\ distinct_labels st' = true
     /\ pokemon_dict_data st' = pokemon_dict_data st
     /\ soup st' = soup st
     /\ url_path st' = url_path st
     /\ pokemon_url_suffixes st' = pokemon_url_suffixes st)
  /\ (distinct_labels st = false ->
      build_database st = (Raise InvalidIndexError, st)).
Proof.
  split.
  - intros U. destruct (build_database_eq st U) as (df' & E & U' & H).
    exists (set_dataframe df' st). split; [exact E|].
    split; [|now repeat split].
    unfold table_rows. cbn [dataframe set_dataframe].
    destruct (dataframe st) as [df|].
    + now apply n_rows_concat in H.
    + subst df'. reflexivity.
  - unfold distinct_labels. intros U. rewrite build_database_unfold.
    destruct (dataframe st) as [df|]; [|discriminate].
    unfold concat.
    destruct (same_labels [df; of_records [pokemon_dict_data st]]) eqn:S.
    + apply same_labels_unique in S. congruence.
    + cbn [forallb]. now rewrite U.
Qed.

Lemma build_database_outcome_witness :
  let fresh := set_dict [] (new None) in
  let doubled := set_dict [("B", "3")]
                   (set_dataframe doubled_frame (new None)) in
  distinct_labels fresh = true
  /\ distinct_labels doubled = false
  /\ (exists st',
         build_database fresh = (Ok tt, st')
         /\ table_rows st' = S (table_rows fresh)
         /\ distinct_labels st' = true
         /\ pokemon_dict_data st' = pokemon_dict_data fresh
         /\ soup st' = soup fresh
         /\ url_path st' = url_path fresh
         /\ pokemon_url_suffixes st' = pokemon_url_suffixes fresh)
  /\ build_database doubled = (Raise InvalidIndexError, doubled).
Proof.
  intros fresh doubled.
  destruct (build_database_outcome fresh) as [Hok _].
  destruct (build_database_outcome doubled) as [_ Hraise].
  split; [reflexivity|]. split; [reflexivity|].
  split; [apply Hok; reflexivity | apply Hraise; reflexivity].
Defined.

End AccumulatorMore.

(* ================================================================== *)
(** ** Further properties: [save_dataframe_to_oracle] *)
(* ================================================================== *)

Module SinkMore.

Import Bs4 PyDict Pandas Scraping Spec Samples Observe.
Import PyDictFacts ScrapingFacts.

(** With a table and all keys, the save is the write. *)
Lemma save_is_to_sql conn st df name user password dsn :
  dataframe st = Some df ->
  get "table_name" conn = Some name ->
  login conn = Some (user, password, dsn) ->
  forall db,
    save_dataframe_to_oracle conn st db
    = to_sql df name user password dsn db.
Proof.
  intros Hdf Hn Hl db. unfold save_dataframe_to_oracle, getitem.
  unfold login in Hl. rewrite Hdf, Hn.
  destruct (get "user" conn); [|discriminate].
  destruct (get "password" conn); [|discriminate].
  destruct (get "host" conn); [|discriminate].
  destruct (get "port" conn); [|discriminate].
  destruct (get "service" conn); [|discriminate].
  now injection Hl as <- <- <-.
Qed.

(** The save either raises before reaching the server, whatever the
    server, or is one write. *)
Lemma save_shape conn st :
  (exists e, forall db, save_dataframe_to_oracle conn st db = (Raise e, db))
  \/ (exists df name user password dsn,
        dataframe st = Some df
        /\ get "table_name" conn = Some name
        /\ login conn = Some (user, password, dsn)
        /\ forall db,
             save_dataframe_to_oracle conn st db
             = to_sql df name user password dsn db).
Proof.
  unfold save_dataframe_to_oracle, getitem, login.
  destruct (dataframe st) as [df|]; [|left; eexists; reflexivity].
  destruct (get "user" conn); [|left; eexists; reflexivity].
  destruct (get "password" conn); [|left; eexists; reflexivity].
  destruct (get "host" conn); [|left; eexists; reflexivity].
  destruct (get "port" conn); [|left; eexists; reflexivity].
  destruct (get "service" conn); [|left; eexists; reflexivity].
  destruct (get "table_name" conn); [|left; eexists; reflexivity].
  right. do 5 eexists. split; [reflexivity|]. split; [reflexivity|].
  split; reflexivity.
Qed.


Lemma filter_drop_same name t :
  filter (fun e : string * DataFrame => String.eqb (fst e) name)
         (drop_table name t) = [].
Proof.
  unfold drop_table. induction t as [|[n d] t IH]; [reflexivity|].
  cbn [filter fst]. destruct (String.eqb_spec n name) as [->|Nn]; cbn [negb].
  - exact IH.
  - cbn [filter fst]. destruct (String.eqb_spec n name); [congruence|].
    exact IH.
Qed.

Lemma drop_table_twice name t :
  drop_table name (drop_table name t) = drop_table name t.
Proof.
  unfold drop_table. induction t as [|[n d] t IH]; [reflexivity|].
  cbn [filter fst]. destruct (String.eqb_spec n name) as [->|Nn]; cbn [negb].
  - exact IH.
  - cbn [filter fst]. destruct (String.eqb_spec n name); [congruence|].
    cbn [negb]. now rewrite IH.
Qed.

Lemma drop_table_cons name x t :
  drop_table name ((name, x) :: t) = drop_table name t.
Proof.
  unfold drop_table. cbn [filter fst]. now rewrite String.eqb_refl.
Qed.

(** X14: with a table to save, all keys present and a server that accepts
    the login and the write of the frame under the destination name, the
    save succeeds; it makes one connection, as the user and with the
    password of the dictionary to [host:port/service]; afterwards exactly
    one table is stored under the destination name, the frame of the
    scraper, whatever was stored under that name before. *)
Theorem save_replaces_destination conn st db df name user password dsn :
  dataframe st = Some df ->
  get "table_name" conn = Some name ->
  login conn = Some (user, password, dsn) ->
  listener db user password dsn = true ->
  writes db name df = true ->
  let db' := snd (save_dataframe_to_oracle conn st db) in
  fst (save_dataframe_to_oracle conn st db) = Ok tt
  /\ connections db' = (user, password, dsn) :: connections db
  /\ table_named name db' = Some df
  /\ tables_named name db' = 1.
Proof.
  intros Hdf Hn Hl Hacc Hw. cbv zeta.
  rewrite (save_is_to_sql conn st df name user password dsn Hdf Hn Hl).
  unfold to_sql. rewrite Hacc. unfold writes in Hw.
  apply andb_prop in Hw. destruct Hw as [Hc Hi]. rewrite Hc.
  assert (E : match data df with
              | [] =>
                  (Ok tt,
                   session db (user, password, dsn)
                     ((name, df) :: drop_table name (tables db)))
              | _ :: _ =>
                  if inserts db name df
                  then (Ok tt,
                        session db (user, password, dsn)
                          ((name, df) :: drop_table name (tables db)))
                  else (Raise DatabaseError,
                        session db (user, password, dsn)
                          ((name, {| columns := columns df; data := [] |})
                             :: drop_table name (tables db)))
              end
              = (Ok tt,
                 session db (user, password, dsn)
                   ((name, df) :: drop_table name (tables db)))).
  { destruct (data df); [reflexivity|]. now rewrite Hi. }
  rewrite E. unfold session, table_named, tables_named.
  cbn [fst snd connections tables].
  split; [reflexivity|]. split; [reflexivity|].
  cbn [List.find filter fst].
  rewrite String.eqb_refl. split; [reflexivity|].
  cbn [List.length]. now rewrite filter_drop_same.
Qed.

Lemma save_replaces_destination_witness :
  let st := set_dataframe (of_records three_rows) (new None) in
  let dsn := "db.example.org:1521/XEPDB1" in
  let db' := snd (save_dataframe_to_oracle connection st stocked_db) in
  dataframe st = Some (of_records three_rows)
  /\ get "table_name" connection = Some "master_pokemon"
  /\ login connection = Some ("ash", "pallet", dsn)
  /\ listener stocked_db "ash" "pallet" dsn = true
  /\ writes stocked_db "master_pokemon" (of_records three_rows) = true
  /\ tables_named "master_pokemon" stocked_db = 2
  /\ fst (save_dataframe_to_oracle connection st stocked_db) = Ok tt
  /\ connections db' = ("ash", "pallet", dsn) :: connections stocked_db
  /\ table_named "master_pokemon" db' = Some (of_records three_rows)
  /\ tables_named "master_pokemon" db' = 1.
Proof.
  intros st dsn db'.
  split; [reflexivity|]. split; [reflexivity|]. split; [reflexivity|].
  split; [reflexivity|]. split; [reflexivity|]. split; [reflexivity|].
  apply (save_replaces_destination connection st stocked_db
           (of_records three_rows) "master_pokemon" "ash" "pallet" dsn);
    reflexivity.
Defined.

(** An accepted write. *)
Lemma to_sql_written df name u pw dsn db :
  listener db u pw dsn = true ->
  writes db name df = true ->
  to_sql df name u pw dsn db
  = (Ok tt, session db (u, pw, dsn) ((name, df) :: drop_table name (tables db))).
Proof.
  intros L W. unfold to_sql. rewrite L. unfold writes in W.
  apply andb_prop in W. destruct W as [C I]. rewrite C.
  destruct (data df); [reflexivity|]. now rewrite I.
Qed.




Lemma to_sql_twice df name u pw dsn db :
  fst (to_sql df name u pw dsn (snd (to_sql df name u pw dsn db)))
  = fst (to_sql df name u pw dsn db)
  /\ tables (snd (to_sql df name u pw dsn (snd (to_sql df name u pw dsn db))))
     = tables (snd (to_sql df name u pw dsn db)).
Proof.
  destruct db as [lis cre ins cons tabs].
  unfold to_sql, session. cbn [listener creates inserts connections tables].
  destruct (lis u pw dsn) eqn:L;
    [destruct (cre name (columns df)) eqn:C;
     [destruct (data df) as [|r rs] eqn:D;
      [|destruct (ins name df) eqn:I]|]|];
    cbn [fst snd listener creates inserts connections tables];
    rewrite ?L, ?C, ?I; cbn [fst snd tables];
    (split; [reflexivity|]);
    rewrite ?drop_table_cons, ?drop_table_twice; reflexivity.
Qed.

(** X16: saving twice is the same as saving once for the tables stored:
    the second save of the same frame with the same connection dictionary
    ends like the first and leaves the same tables (replace, not append). *)
Theorem save_twice conn st db :
  let once := save_dataframe_to_oracle conn st db in
  let twice := save_dataframe_to_oracle conn st (snd once) in
  fst twice = fst once /\ tables (snd twice) = tables (snd once).
Proof.
  cbv zeta.
  destruct (save_shape conn st)
    as [(e & E)|(df & name & u & pw & dsn & _ & _ & _ & E)]; rewrite !E.
  - split; reflexivity.
  - apply to_sql_twice.
Qed.

(** X17: the [KeyError] names the first absent key in the order the method
    reads them: user, password, host, port, service, table_name; the
    server is not contacted. *)
Theorem save_reports_first_missing_key conn st db df k :
  dataframe st = Some df ->
  first_missing conn = Some k ->
  save_dataframe_to_oracle conn st db = (Raise (KeyError k), db).
Proof.
  intros Hdf H. unfold save_dataframe_to_oracle, getitem. rewrite Hdf.
  unfold first_missing, required_keys in H. cbn [List.find] in H.
  destruct (get "user" conn); [|now injection H as <-].
  destruct (get "password" conn); [|now injection H as <-].
  destruct (get "host" conn); [|now injection H as <-].
  destruct (get "port" conn); [|now injection H as <-].
  destruct (get "service" conn); [|now injection H as <-].
  destruct (get "table_name" conn); [discriminate|now injection H as <-].
Qed.

Lemma save_reports_first_missing_key_witness :
  let st := set_dataframe (of_records three_rows) (new None) in
  let conn := [("table_name", "master_pokemon"); ("user", "ash");
               ("password", "pallet"); ("port", "1521")] in
  dataframe st = Some (of_records three_rows)
  /\ first_missing conn = Some "host"
  /\ save_dataframe_to_oracle conn st fresh_db
     = (Raise (KeyError "host"), fresh_db).
Proof.
  intros st conn. split; [reflexivity|]. split; [reflexivity|].
  apply (save_reports_first_missing_key conn st fresh_db
           (of_records three_rows) "host"); reflexivity.
Defined.

(** X18: when the server refuses the login the save raises
    [DatabaseError]; the attempt was made, and every table is as it was,
    the one under the destination name included. *)
Theorem save_refused_login conn st db df name user password dsn :
  dataframe st = Some df ->
  get "table_name" conn = Some name ->
  login conn = Some (user, password, dsn) ->
  listener db user password dsn = false ->
  let r := save_dataframe_to_oracle conn st db in
  fst r = Raise DatabaseError
  /\ connections (snd r) = (user, password, dsn) :: connections db
  /\ tables (snd r) = tables db.
Proof.
  intros Hdf Hn Hl Hacc. cbv zeta.
  rewrite (save_is_to_sql conn st df name user password dsn Hdf Hn Hl).
  unfold to_sql. rewrite Hacc. now repeat split.
Qed.

Lemma save_refused_login_witness :
  let st := set_dataframe (of_records three_rows) (new None) in
  let dsn := "db.example.org:1521/XEPDB1" in
  let r := save_dataframe_to_oracle connection st closed_db in
  dataframe st = Some (of_records three_rows)
  /\ get "table_name" connection = Some "master_pokemon"
  /\ login connection = Some ("ash", "pallet", dsn)
  /\ listener closed_db "ash" "pallet" dsn = false
  /\ fst r = Raise DatabaseError
  /\ connections (snd r) = ("ash", "pallet", dsn) :: connections closed_db
  /\ tables (snd r) = tables closed_db.
Proof.
  intros st dsn r.
  split; [reflexivity|]. split; [reflexivity|]. split; [reflexivity|].
  split; [reflexivity|].
  apply (save_refused_login connection st closed_db
           (of_records three_rows) "master_pokemon" "ash" "pallet" dsn);
    reflexivity.
Defined.

End SinkMore.


(* ================================================================== *)
(** ** Further properties: [run_scraping] and the script *)
(* ================================================================== *)

Module PipelineMore.

Import Bs4 PyDict Pandas Scraping Spec Samples Observe.
Import PyDictFacts PandasFacts ScrapingFacts.

(** An entity raises exactly when its page is not served or lacks the
    heading; then it adds no row and writes no entry. *)
Lemma scrape_one_fails web suffix st :
  has_heading web suffix = false ->
  exists e st',
    scrape_one web suffix st = (Raise e, st')
    /\ e = match web (build_pokemon_url suffix) with
           | None => RequestException
           | Some _ => AttributeError
           end
    /\ table_rows st' = table_rows st
    /\ pokemon_dict_data st' = pokemon_dict_data st
    /\ pokemon_url_suffixes st' = pokemon_url_suffixes st.
Proof.
  unfold has_heading, scrape_one, bind. intros H.
  rewrite get_pokemon_data_eq.
  destruct (web (build_pokemon_url suffix)) as [page|].
  - destruct (soup_select_one selector_name page) as [h|]; [discriminate|].
    do 2 eexists. now repeat split.
  - do 2 eexists. now repeat split.
Qed.

Lemma loop_succeeds_iff web l : forall st,
  distinct_labels st = true ->
  fst (for_each l (scrape_one web) st) = Ok tt
  <-> forallb (has_heading web) l = true.
Proof.
  induction l as [|x l IH]; intros st U; cbn [for_each forallb].
  - split; reflexivity.
  - unfold bind. destruct (has_heading web x) eqn:Hx.
    + destruct (scrape_one_ok web x st U Hx) as (st1 & E1 & _ & U1).
      rewrite E1. cbn [andb]. now apply IH.
    + destruct (scrape_one_fails web x st Hx) as (e & st1 & E1 & _).
      rewrite E1. cbn [andb fst]. split; discriminate.
Qed.

(** X19: for a scraper whose table is unset or has no label twice, with
    the listing served and its links read, the run succeeds exactly when
    the page of every link is served and has the heading; it then holds
    the links in listing order and has added one row per link. *)
Theorem run_scraping_succeeds_iff web st url page l :
  distinct_labels st = true ->
  url_path st = Some url ->
  web url = Some page ->
  hrefs (soup_select selector_cards page) = Ok l ->
  (fst (run_scraping web st) = Ok tt
   <-> forallb (has_heading web) l = true)
  /\ (forallb (has_heading web) l = true ->
      pokemon_url_suffixes (snd (run_scraping web st)) = l
      /\ table_rows (snd (run_scraping web st))
         = table_rows st + List.length l).
Proof.
  intros U Hu Hw Hl. rewrite run_scraping_eq, get_urls_eq, Hu, Hw, Hl.
  cbn [pokemon_url_suffixes set_suffixes]. split.
  - now apply loop_succeeds_iff.
  - intros Hall.
    match goal with |- context [for_each l _ ?s] =>
      destruct (scrape_all_ok web l s U Hall) as (st1 & E1 & R1 & _);
      pose proof (for_each_invariant
                    (fun x => pokemon_url_suffixes x = l) (scrape_one web)
                    (fun x s0 H => eq_trans (scrape_one_suffixes web x s0) H)
                    l s eq_refl) as S1
    end.
    rewrite E1 in *. cbn [snd] in *. split; [exact S1|].
    rewrite R1. reflexivity.
Qed.

Lemma run_scraping_succeeds_iff_witness :
  let st := set_dataframe stored_frame (new (Some catalogue)) in
  let page := listing ["/pokedex/1"; "/pokedex/2"] in
  let l := ["/pokedex/1"; "/pokedex/2"] in
  distinct_labels st = true
  /\ url_path st = Some catalogue
  /\ two_entities catalogue = Some page
  /\ hrefs (soup_select selector_cards page) = Ok l
  /\ forallb (has_heading two_entities) l = true
  /\ forallb (has_heading unreachable_second) l = false
  /\ fst (run_scraping two_entities st) = Ok tt
  /\ fst (run_scraping unreachable_second st) <> Ok tt
  /\ pokemon_url_suffixes (snd (run_scraping two_entities st)) = l
  /\ table_rows (snd (run_scraping two_entities st)) = 4.
Proof.
  intros st page l.
  destruct (run_scraping_succeeds_iff two_entities st catalogue page l
              eq_refl eq_refl eq_refl eq_refl) as [Hiff Hrows].
  destruct (run_scraping_succeeds_iff unreachable_second st catalogue page l
              eq_refl eq_refl eq_refl eq_refl) as [Hiff' _].
  destruct (Hrows eq_refl) as [Hs Hr].
  split; [reflexivity|]. split; [reflexivity|]. split; [reflexivity|].
  split; [reflexivity|]. split; [reflexivity|]. split; [reflexivity|].
  split; [apply Hiff; reflexivity|].
  split; [intros H; apply Hiff' in H; discriminate H|].
  split; [exact Hs | exact Hr].
Defined.

(** X20: a catalogue without entity cards is no error for the run: it
    ends normally with an empty link list and the table still unset; the
    script then stops at the guard of the save with [ValueError], and the
    database is as it was. *)
Theorem empty_catalogue_saves_nothing web url page conn db :
  web url = Some page ->
  soup_select selector_cards page = [] ->
  run_scraping web (new (Some url))
  = (Ok tt, set_suffixes [] (set_soup page (new (Some url))))
  /\ main web url conn db
     = (Raise (ValueError "DataFrame is empty. Run scraping first."),
        set_suffixes [] (set_soup page (new (Some url))), db).
Proof.
  intros Hw Hnone.
  assert (R : run_scraping web (new (Some url))
              = (Ok tt, set_suffixes [] (set_soup page (new (Some url))))).
  { rewrite run_scraping_eq, get_urls_eq. cbn [url_path new].
    now rewrite Hw, Hnone. }
  split; [exact R|]. unfold main. now rewrite R.
Qed.

Lemma empty_catalogue_saves_nothing_witness :
  let page := listing [] in
  empty_catalogue catalogue = Some page
  /\ soup_select selector_cards page = []
  /\ run_scraping empty_catalogue (new (Some catalogue))
     = (Ok tt, set_suffixes [] (set_soup page (new (Some catalogue))))
  /\ main empty_catalogue catalogue connection stocked_db
     = (Raise (ValueError "DataFrame is empty. Run scraping first."),
        set_suffixes [] (set_soup page (new (Some catalogue))), stocked_db).
Proof.
  intros page. split; [reflexivity|]. split; [reflexivity|].
  apply (empty_catalogue_saves_nothing empty_catalogue catalogue page
           connection stocked_db); reflexivity.
Defined.

(** X21: when every page is served and has the heading, the connection
    dictionary is complete and the server accepts the login and the write
    of the frame the run built, the script ends normally; the table it
    leaves under the destination name is the frame held in memory, with
    one row per link of the listing, and it is the only table of that
    name. *)
Theorem main_persists_every_row
        web url page l conn db name user password dsn :
  web url = Some page ->
  hrefs (soup_select selector_cards page) = Ok l ->
  l <> [] ->
  forallb (has_heading web) l = true ->
  get "table_name" conn = Some name ->
  login conn = Some (user, password, dsn) ->
  listener db user password dsn = true ->
  (forall df,
      dataframe (snd (run_scraping web (new (Some url)))) = Some df ->
      writes db name df = true) ->
  exists st df db',
    main web url conn db = (Ok tt, st, db')
    /\ dataframe st = Some df
    /\ n_rows df = List.length l
    /\ table_named name db' = Some df
    /\ tables_named name db' = 1
    /\ connections db' = (user, password, dsn) :: connections db.
Proof.
  intros Hw Hl Hne Hall Hn Hlog Hacc Hwrites.
  assert (R : exists st,
             run_scraping web (new (Some url)) = (Ok tt, st)
             /\ table_rows st = List.length l).
  { rewrite run_scraping_eq, get_urls_eq. cbn [url_path new].
    rewrite Hw, Hl. cbn [pokemon_url_suffixes set_suffixes].
    match goal with |- context [for_each l _ ?s] =>
      destruct (scrape_all_ok web l s eq_refl Hall)
        as (st1 & E1 & R1 & _) end.
    exists st1. split; [exact E1|]. rewrite R1. reflexivity. }
  destruct R as (st & E & Rows).
  unfold table_rows in Rows. rewrite E in Hwrites. cbn [snd] in Hwrites.
  destruct (dataframe st) as [df|] eqn:Hdf;
    [|destruct l; [congruence | discriminate]].
  unfold main. rewrite E.
  rewrite (SinkMore.save_is_to_sql conn st df name user password dsn
             Hdf Hn Hlog).
  rewrite (SinkMore.to_sql_written df name user password dsn db Hacc
             (Hwrites df eq_refl)).
  do 3 eexists.
  split; [reflexivity|]. split; [exact Hdf|]. split; [exact Rows|].
  unfold session, table_named, tables_named. cbn [tables connections].
  cbn [List.find filter fst].
  rewrite String.eqb_refl. split; [reflexivity|].
  cbn [List.length]. now rewrite SinkMore.filter_drop_same.
Qed.

Lemma main_persists_every_row_witness :
  let page := listing ["/pokedex/1"; "/pokedex/2"] in
  let l := ["/pokedex/1"; "/pokedex/2"] in
  let dsn := "db.example.org:1521/XEPDB1" in
  two_entities catalogue = Some page
  /\ hrefs (soup_select selector_cards page) = Ok l
  /\ l <> []
  /\ forallb (has_heading two_entities) l = true
  /\ get "table_name" connection = Some "master_pokemon"
  /\ login connection = Some ("ash", "pallet", dsn)
  /\ listener stocked_db "ash" "pallet" dsn = true
  /\ (forall df,
         dataframe (snd (run_scraping two_entities (new (Some catalogue))))
         = Some df ->
         writes stocked_db "master_pokemon" df = true)
  /\ exists st df db',
       main two_entities catalogue connection stocked_db = (Ok tt, st, db')
       /\ dataframe st = Some df
       /\ n_rows df = List.length l
       /\ table_named "master_pokemon" db' = Some df
       /\ tables_named "master_pokemon" db' = 1
       /\ connections db' = ("ash", "pallet", dsn) :: connections stocked_db.
Proof.
  intros page l dsn.
  assert (Hne : l <> []) by discriminate.
  assert (Hwr : forall df,
             dataframe (snd (run_scraping two_entities
                               (new (Some catalogue)))) = Some df ->
             writes stocked_db "master_pokemon" df = true).
  { intros df _. unfold writes. cbn. now destruct (data df). }
  split; [reflexivity|]. split; [reflexivity|]. split; [exact Hne|].
  split; [reflexivity|]. split; [reflexivity|]. split; [reflexivity|].
  split; [reflexivity|]. split; [exact Hwr|].
  apply (main_persists_every_row two_entities catalogue page l connection
           stocked_db "master_pokemon" "ash" "pallet" dsn);
    [reflexivity | reflexivity | exact Hne | reflexivity | reflexivity
    | reflexivity | reflexivity | exact Hwr].
Defined.

(** X22: when the page of some entity is not served and the entities
    before it were extracted, the script ends with the
    [RequestException] of that fetch; the rows of the earlier entities
    are in memory, the link list is complete, and the database is as it
    was. *)
Theorem unreachable_page_aborts_run web url conn db page l1 u l2 :
  web url = Some page ->
  hrefs (soup_select selector_cards page) = Ok (l1 ++ u :: l2)%list ->
  forallb (has_heading web) l1 = true ->
  web (build_pokemon_url u) = None ->
  exists st,
    run_scraping web (new (Some url)) = (Raise RequestException, st)
    /\ main web url conn db = (Raise RequestException, st, db)
    /\ table_rows st = List.length l1
    /\ pokemon_url_suffixes st = (l1 ++ u :: l2)%list.
Proof.
  intros Hw Hl Hpre Hu.
  assert (Hf : has_heading web u = false).
  { unfold has_heading. now rewrite Hu. }
  assert (R : exists st,
             run_scraping web (new (Some url)) = (Raise RequestException, st)
             /\ table_rows st = List.length l1
             /\ pokemon_url_suffixes st = (l1 ++ u :: l2)%list).
  { rewrite run_scraping_eq, get_urls_eq. cbn [url_path new].
    rewrite Hw, Hl. cbn [pokemon_url_suffixes set_suffixes].
    rewrite for_each_app.
    match goal with |- context [for_each l1 _ ?s] =>
      destruct (scrape_all_ok web l1 s eq_refl Hpre) as (st1 & E1 & R1 & _);
      pose proof (for_each_invariant
                    (fun x => pokemon_url_suffixes x = (l1 ++ u :: l2)%list)
                    (scrape_one web)
                    (fun x s0 H => eq_trans (scrape_one_suffixes web x s0) H)
                    l1 s eq_refl) as S1
    end.
    rewrite E1 in *. cbn [snd] in S1. cbn [for_each]. unfold bind at 1.
    destruct (scrape_one_fails web u st1 Hf)
      as (e & st2 & E2 & He & R2 & _ & S2).
    rewrite Hu in He. subst e. rewrite E2. exists st2.
    split; [reflexivity|]. split; [now rewrite R2, R1 | now rewrite S2]. }
  destruct R as (st & E & Rows & Sfx). exists st.
  split; [exact E|]. split; [|split; assumption].
  unfold main. now rewrite E.
Qed.

Lemma unreachable_page_aborts_run_witness :
  let page := listing ["/pokedex/1"; "/pokedex/2"] in
  unreachable_second catalogue = Some page
  /\ hrefs (soup_select selector_cards page)
     = Ok (["/pokedex/1"] ++ "/pokedex/2" :: [])%list
  /\ forallb (has_heading unreachable_second) ["/pokedex/1"] = true
  /\ unreachable_second (build_pokemon_url "/pokedex/2") = None
  /\ exists st,
       run_scraping unreachable_second (new (Some catalogue))
       = (Raise RequestException, st)
       /\ main unreachable_second catalogue connection stocked_db
          = (Raise RequestException, st, stocked_db)
       /\ table_rows st = List.length ["/pokedex/1"]
       /\ pokemon_url_suffixes st
          = (["/pokedex/1"] ++ "/pokedex/2" :: [])%list.
Proof.
  intros page. split; [reflexivity|]. split; [reflexivity|].
  split; [reflexivity|]. split; [reflexivity|].
  apply (unreachable_page_aborts_run unreachable_second catalogue connection
           stocked_db page ["/pokedex/1"] "/pokedex/2" []); reflexivity.
Defined.

Lemma column_of_records c rows :
  column c (of_records rows) = map (get c) rows.
Proof.
  unfold column. cbn [data columns of_records]. rewrite map_map.
  apply map_ext_in. intros d Hd. apply row_get_record. intros k Hk.
  apply (In_columns_of_records k rows). eauto.
Qed.

(** The loop appends the dictionaries its extractions leave, and each of
    them names its entity by the heading of the page. *)
Lemma loop_snapshots web l : forall pre st,
  dataframe st = table_of pre ->
  forallb (has_heading web) l = true ->
  forallb (fun u => negb (relabels_name web u)) l = true ->
  exists st' snaps,
    for_each l (scrape_one web) st = (Ok tt, st')
    /\ dataframe st' = table_of (pre ++ snaps)
    /\ map (get name_key) snaps = map (heading_text web) l.
Proof.
  induction l as [|u l IH]; intros pre st Hdf Hall Hrel.
  - exists st, []. rewrite app_nil_r. now repeat split.
  - cbn [forallb] in Hall, Hrel.
    apply andb_prop in Hall. destruct Hall as [Hu Hall].
    apply andb_prop in Hrel. destruct Hrel as [Hr Hrel].
    apply negb_true_iff in Hr.
    unfold has_heading in Hu. unfold relabels_name in Hr.
    cbn [for_each]. unfold bind at 1. unfold scrape_one at 1.
    unfold bind at 1. rewrite get_pokemon_data_eq.
    cbn [map]. unfold heading_text at 1.
    destruct (web (build_pokemon_url u)) as [page|]; [|discriminate].
    destruct (soup_select_one selector_name page) as [h|]; [|discriminate].
    set (d1 := merged page (set name_key (get_text "" h)
                                (pokemon_dict_data st))).
    set (st1 := set_dict d1 (set_soup page st)).
    destruct (Accumulator.build_database_snoc pre st1 Hdf)
      as (st2 & E2 & H2).
    rewrite E2. cbn [pokemon_dict_data st1 set_dict] in H2.
    destruct (IH (pre ++ [d1])%list st2 H2 Hall Hrel)
      as (st' & snaps & E' & Hdf' & Hnames).
    exists st', (d1 :: snaps). split; [exact E'|]. split.
    + now rewrite <- app_assoc in Hdf'.
    + assert (G : get name_key d1 = Some (get_text "" h)).
      { apply mem_not_In in Hr. unfold d1, merged.
        rewrite Detail.get_fold_absent; [apply get_set_same|].
        intros t Ht. apply get_None_keys. intros Hk. apply Hr.
        unfold contributed_keys. apply in_flat_map. eauto. }
      cbn [map]. now rewrite Hnames, G.
Qed.

(** X23: after a successful run of a fresh scraper, where no attribute
    table has a row labelled [Pokemon Name], the name column of the table
    lists the trimmed headings of the entity pages in the order of the
    links of the listing, one row per link. *)
Theorem names_follow_listing web url page l :
  web url = Some page ->
  hrefs (soup_select selector_cards page) = Ok l ->
  forallb (has_heading web) l = true ->
  forallb (fun u => negb (relabels_name web u)) l = true ->
  exists st,
    run_scraping web (new (Some url)) = (Ok tt, st)
    /\ match dataframe st with
       | Some df => column name_key df = map (heading_text web) l
       | None => l = []
       end.
Proof.
  intros Hw Hl Hall Hrel.
  rewrite run_scraping_eq, get_urls_eq. cbn [url_path new].
  rewrite Hw, Hl. cbn [pokemon_url_suffixes set_suffixes].
  match goal with |- context [for_each l _ ?s] =>
    destruct (loop_snapshots web l [] s eq_refl Hall Hrel)
      as (st' & snaps & E & Hdf & Hnames) end.
  exists st'. split; [exact E|]. rewrite Hdf. cbn [app].
  destruct snaps as [|d snaps]; cbn [table_of].
  - destruct l; [reflexivity | discriminate].
  - now rewrite column_of_records.
Qed.

Lemma names_follow_listing_witness :
  let page := listing ["/pokedex/1"; "/pokedex/2"] in
  let l := ["/pokedex/1"; "/pokedex/2"] in
  two_entities catalogue = Some page
  /\ hrefs (soup_select selector_cards page) = Ok l
  /\ forallb (has_heading two_entities) l = true
  /\ forallb (fun u => negb (relabels_name two_entities u)) l = true
  /\ map (heading_text two_entities) l = [Some "Bulbasaur"; Some "Ivysaur"]
  /\ exists st,
       run_scraping two_entities (new (Some catalogue)) = (Ok tt, st)
       /\ match dataframe st with
          | Some df => column name_key df = map (heading_text two_entities) l
          | None => l = []
          end.
Proof.
  intros page l.
  split; [reflexivity|]. split; [reflexivity|]. split; [reflexivity|].
  split; [reflexivity|]. split; [reflexivity|].
  apply (names_follow_listing two_entities catalogue page l); reflexivity.
Defined.

End PipelineMore.
